(** * Custom Fields Filter tools of the Sensor Tower MCP server

    A shallow embedding of [src/sensortower_mcp/tools/custom_fields.py]:
    the class [CustomFieldsTools], its [register_tools] method and the three
    coroutines it registers.  The request facility of the base class
    ([make_request], [make_post_request]) and [json.loads] are external to
    the module; the operations are written against them and every theorem
    quantifies over their behaviour. *)

From Stdlib Require Import ZArith NArith Ascii String DecimalString.
From stdpp Require Import base strings list gmap.

#[local] Set Warnings "-register-all".

(** ** Python values *)

(** The values [json.loads] produces and the request facility returns: [None],
    [bool], [int], [float], [str], [list] and [dict].  A [float] is kept as
    the text of its literal, a [dict] as its items in insertion order. *)
Inductive pyobj : Type :=
| PyNone
| PyBool (b : bool)
| PyInt (z : Z)
| PyFloat (literal : string)
| PyStr (s : string)
| PyList (items : list pyobj)
| PyDict (items : list (string * pyobj)).

(** [key in d] and [d.get(key)] on the items of a [dict]. *)
Fixpoint dict_get (key : string) (items : list (string * pyobj)) : option pyobj :=
  match items with
  | [] => None
  | (k, v) :: rest => if String.eqb k key then Some v else dict_get key rest
  end.

(** [d[key] = v]: a key already present keeps its place. *)
Fixpoint dict_set (key : string) (v : pyobj) (items : list (string * pyobj))
  : list (string * pyobj) :=
  match items with
  | [] => [(key, v)]
  | (k, x) :: rest =>
      if String.eqb k key then (k, v) :: rest else (k, x) :: dict_set key v rest
  end.

(** [dict(pairs)]. *)
Definition dict (pairs : list (string * pyobj)) : list (string * pyobj) :=
  fold_left (fun d kv => dict_set kv.1 kv.2 d) pairs [].

Definition has_key (key : string) (o : pyobj) : bool :=
  match o with
  | PyDict items => bool_decide (is_Some (dict_get key items))
  | _ => false
  end.

Definition get_key (key : string) (o : pyobj) : option pyobj :=
  match o with
  | PyDict items => dict_get key items
  | _ => None
  end.

(** ** Exceptions *)

(** The exception classes the module names, and any other exception by class
    name and message. *)
Inductive exn : Type :=
| JSONDecodeError (errmsg : string)
| ToolError (msg : string)
| OtherError (cls : string) (msg : string).

(** [str(e)], which is what [f"{e}"] interpolates. *)
Definition exn_str (e : exn) : string :=
  match e with
  | JSONDecodeError errmsg => errmsg
  | ToolError msg => msg
  | OtherError _ msg => msg
  end.

Inductive outcome (A : Type) : Type :=
| Ok (a : A)
| Exc (e : exn).
Arguments Ok {A} a.
Arguments Exc {A} e.

(** ** The request facility and coroutines *)

(** A call on the base class's request facility: [make_request(path, params)]
    performs the read (GET) request, [make_post_request(path, json_body=...)]
    the write (POST) request. *)
Inductive call : Type :=
| MakeRequest (path : string) (params : gmap string string)
| MakePostRequest (path : string) (json_body : pyobj).

(** The body of an [async def]: it returns, raises, or awaits a call; [Await]
    carries the continuation for the call's result and the one for an
    exception raised by the call, so that a [try] around an [await] can be
    written. *)
Inductive coro (A : Type) : Type :=
| Return (a : A)
| Raise (e : exn)
| Await (c : call) (k : pyobj -> coro A) (h : exn -> coro A).
Arguments Return {A} a.
Arguments Raise {A} e.
Arguments Await {A} c k h.

Fixpoint bind {A B : Type} (m : coro A) (f : A -> coro B) : coro B :=
  match m with
  | Return a => f a
  | Raise e => Raise e
  | Await c k h => Await c (fun v => bind (k v) f) (fun e => bind (h e) f)
  end.

#[export] Instance coro_ret : MRet coro := @Return.
#[export] Instance coro_bind : MBind coro := fun A B f m => bind m f.

(** [try: body except Exception as e: handler e]. *)
Fixpoint try_except {A : Type} (body : coro A) (handler : exn -> coro A) : coro A :=
  match body with
  | Return a => Return a
  | Raise e => handler e
  | Await c k h =>
      Await c (fun v => try_except (k v) handler) (fun e => try_except (h e) handler)
  end.

(** [await self.make_request(...)] outside any [try]: an exception of the
    call is the coroutine's. *)
Definition await (c : call) : coro pyobj := Await c Return Raise.

(** The result of a synchronous call that may raise. *)
Definition of_outcome {A : Type} (r : outcome A) : coro A :=
  match r with
  | Ok a => Return a
  | Exc e => Raise e
  end.

(** Running a coroutine against a request facility [facility], from the state
    [w] of the world outside: the outcome, the state after, and the calls
    made, in order. *)
Section Run.
Context {World : Type}.
Variable facility : call -> World -> outcome pyobj * World.

Fixpoint run {A : Type} (p : coro A) (w : World) : outcome A * World * list call :=
  match p with
  | Return a => (Ok a, w, [])
  | Raise e => (Exc e, w, [])
  | Await c k h =>
      let '(r, w') := facility c w in
      let '(res, w'', calls) :=
        match r with
        | Ok v => run (k v) w'
        | Exc e => run (h e) w'
        end in
      (res, w'', c :: calls)
  end.

Definition result {A : Type} (p : coro A) (w : World) : outcome A := (run p w).1.1.
Definition world_after {A : Type} (p : coro A) (w : World) : World := (run p w).1.2.
Definition calls {A : Type} (p : coro A) (w : World) : list call := (run p w).2.
End Run.

(** ** A decoder for JSON texts

    [json.loads] is the standard library's; the module under study is
    written against any behaviour of it (see [json_loads] below).  [Json.loads]
    is a decoder to instantiate it with in the examples: it follows the
    scanner [json.loads] runs in CPython 3.11 on the text as a sequence of
    bytes, with its messages and positions (which count bytes, so they are
    CPython's when the text before them is ASCII).  A [float] keeps its
    literal and an escape [\uXXXX] yields the UTF-8 bytes of its code point.
    Like [json.loads] it accepts the names [NaN], [Infinity] and
    [-Infinity], which RFC 8259 does not.  The two limits of the interpreter
    that [json.loads] meets are part of it: an [int] of more than 4300 digits
    raises [ValueError], and a container nested deeper than the interpreter
    has room for raises [RecursionError]; that room depends on where the
    call is made, so [loads_within] takes it as an argument and [loads] is
    the case of room for the whole text. *)
Module Json.

Definition dquote : ascii := "034"%char.
Definition backslash : ascii := "\"%char.
Definition newline : ascii := "010"%char.

Definition is_ws (c : ascii) : bool :=
  (c =? " ")%char || (c =? "009")%char || (c =? "010")%char || (c =? "013")%char.

Definition is_digit (c : ascii) : bool :=
  (48 <=? nat_of_ascii c)%nat && (nat_of_ascii c <=? 57)%nat.

Fixpoint skip_ws (s : string) (pos : nat) : string * nat :=
  match s with
  | String c rest => if is_ws c then skip_ws rest (S pos) else (s, pos)
  | "" => (s, pos)
  end.

(** The result of scanning from a position: a value with the text left and
    its position, [JSONDecodeError(msg, s, pos)], an exception of another
    class, or the end of the decoder's fuel. *)
Inductive scanned (A : Type) : Type :=
| At (a : A) (rest : string) (pos : nat)
| Bad (msg : string) (pos : nat)
| Raised (e : exn)
| TooDeep.
Arguments At {A} a rest pos.
Arguments Bad {A} msg pos.
Arguments Raised {A} e.
Arguments TooDeep {A}.

Definition scanned_map {A B : Type} (f : A -> B) (r : scanned A) : scanned B :=
  match r with
  | At a rest pos => At (f a) rest pos
  | Bad msg pos => Bad msg pos
  | Raised e => Raised e
  | TooDeep => TooDeep
  end.

Definition decimal (n : nat) : string := NilEmpty.string_of_uint (Nat.to_uint n).

Definition hex_digit (c : ascii) : option N :=
  let n := N_of_ascii c in
  if (48 <=? n)%N && (n <=? 57)%N then Some (n - 48)%N
  else if (65 <=? n)%N && (n <=? 70)%N then Some (n - 55)%N
  else if (97 <=? n)%N && (n <=? 102)%N then Some (n - 87)%N
  else None.

Definition hex4 (a b c d : ascii) : option N :=
  match hex_digit a, hex_digit b, hex_digit c, hex_digit d with
  | Some x, Some y, Some z, Some w => Some (((x * 16 + y) * 16 + z) * 16 + w)%N
  | _, _, _, _ => None
  end.

Definition is_high_surrogate (cp : N) : bool := (0xD800 <=? cp)%N && (cp <=? 0xDBFF)%N.
Definition is_low_surrogate (cp : N) : bool := (0xDC00 <=? cp)%N && (cp <=? 0xDFFF)%N.
Definition join_surrogates (hi lo : N) : N :=
  (0x10000 + ((hi - 0xD800) * 0x400 + (lo - 0xDC00)))%N.

Definition byte (n : N) : string := String (ascii_of_N n) "".

Definition utf8 (cp : N) : string :=
  if (cp <? 0x80)%N then byte cp
  else if (cp <? 0x800)%N then
    byte (0xC0 + cp / 0x40) +:+ byte (0x80 + cp mod 0x40)
  else if (cp <? 0x10000)%N then
    byte (0xE0 + cp / 0x1000) +:+ byte (0x80 + (cp / 0x40) mod 0x40)
    +:+ byte (0x80 + cp mod 0x40)
  else
    byte (0xF0 + cp / 0x40000) +:+ byte (0x80 + (cp / 0x1000) mod 0x40)
    +:+ byte (0x80 + (cp / 0x40) mod 0x40) +:+ byte (0x80 + cp mod 0x40).

Definition unescape (c : ascii) : option ascii :=
  if (c =? dquote)%char then Some dquote
  else if (c =? backslash)%char then Some backslash
  else if (c =? "/")%char then Some "/"%char
  else if (c =? "b")%char then Some "008"%char
  else if (c =? "f")%char then Some "012"%char
  else if (c =? "n")%char then Some "010"%char
  else if (c =? "r")%char then Some "013"%char
  else if (c =? "t")%char then Some "009"%char
  else None.

(** [scanstring]: the text after the opening quote at [begin]; [pos] is the
    position of the first character of [s].  An escape [\uXXXX] wants a
    character after its four digits, and a pair of surrogates one after the
    second escape. *)
Fixpoint scanstring (begin : nat) (s : string) (pos : nat) : scanned string :=
  match s with
  | "" => Bad "Unterminated string starting at" begin
  | String c rest =>
      if (c =? dquote)%char then At "" rest (S pos)
      else if (c =? backslash)%char then
        match rest with
        | "" => Bad "Unterminated string starting at" begin
        | String e rest1 =>
            if (e =? "u")%char then
              match rest1 with
              | String h1 (String h2 (String h3 (String h4 (String _ _ as rest2)))) =>
                  match hex4 h1 h2 h3 h4 with
                  | None => Bad "Invalid \uXXXX escape" (pos + 1)
                  | Some hi =>
                      let single :=
                        scanned_map (String.append (utf8 hi))
                                    (scanstring begin rest2 (pos + 6)) in
                      match rest2 with
                      | String b (String u (String l1 (String l2 (String l3
                          (String l4 (String _ _ as rest3)))))) =>
                          if is_high_surrogate hi && (b =? backslash)%char && (u =? "u")%char then
                            match hex4 l1 l2 l3 l4 with
                            | None => Bad "Invalid \uXXXX escape" (pos + 7)
                            | Some lo =>
                                if is_low_surrogate lo then
                                  scanned_map (String.append (utf8 (join_surrogates hi lo)))
                                              (scanstring begin rest3 (pos + 12))
                                else single
                            end
                          else single
                      | _ => single
                      end
                  end
              | _ => Bad "Invalid \uXXXX escape" (pos + 1)
              end
            else
              match unescape e with
              | Some c' => scanned_map (String c') (scanstring begin rest1 (pos + 2))
              | None => Bad "Invalid \escape" pos
              end
        end
      else if (nat_of_ascii c <=? 31)%nat then Bad "Invalid control character at" pos
      else scanned_map (String c) (scanstring begin rest (S pos))
  end.

Fixpoint take_digits (s : string) : string * string :=
  match s with
  | String c rest =>
      if is_digit c then let '(ds, r) := take_digits rest in (String c ds, r)
      else ("", s)
  | "" => ("", "")
  end.

(** The integer part of a number (an optional minus sign, then a single zero
    or a non-zero digit and further digits): the literal matched and the
    text after it. *)
Definition match_integer (s : string) : option (string * string) :=
  let '(sign, s1) :=
    match s with
    | String c r => if (c =? "-")%char then ("-", r) else ("", s)
    | "" => ("", s)
    end in
  match s1 with
  | String c r =>
      if (c =? "0")%char then Some (sign +:+ "0", r)
      else if is_digit c then
        let '(ds, r') := take_digits s1 in Some (sign +:+ ds, r')
      else None
  | "" => None
  end.

(** The optional fraction: a point and one or more digits. *)
Definition match_frac (s : string) : string * string :=
  match s with
  | String c r =>
      if (c =? ".")%char then
        match take_digits r with
        | ("", _) => ("", s)
        | (ds, r') => (String c ds, r')
        end
      else ("", s)
  | "" => ("", s)
  end.

(** The optional exponent: e or E, an optional sign, one or more digits. *)
Definition match_exp (s : string) : string * string :=
  match s with
  | String e r =>
      if (e =? "e")%char || (e =? "E")%char then
        let '(sign, r1) :=
          match r with
          | String c r' =>
              if (c =? "-")%char || (c =? "+")%char then (String c "", r') else ("", r)
          | "" => ("", r)
          end in
        match take_digits r1 with
        | ("", _) => ("", s)
        | (ds, r2) => (String e (sign +:+ ds), r2)
        end
      else ("", s)
  | "" => ("", s)
  end.

Fixpoint digits_value (ds : string) (acc : Z) : Z :=
  match ds with
  | String c rest => digits_value rest (acc * 10 + (Z.of_nat (nat_of_ascii c) - 48))
  | "" => acc
  end.

(** [sys.get_int_max_str_digits()], as the interpreter starts. *)
Definition int_max_str_digits : nat := 4300.

(** [int(literal)] for a literal matched by [match_integer]: [ValueError]
    when it has more digits than the interpreter converts. *)
Definition parse_int (literal : string) : outcome Z :=
  let '(negative, digits) :=
    match literal with
    | String c rest => if (c =? "-")%char then (true, rest) else (false, literal)
    | "" => (false, literal)
    end in
  if (int_max_str_digits <? String.length digits)%nat then
    Exc (OtherError "ValueError"
           ("Exceeds the limit (4300 digits) for integer string conversion: value has "
            +:+ decimal (String.length digits)
            +:+ " digits; use sys.set_int_max_str_digits() to increase the limit"))
  else Ok (if negative then - digits_value digits 0 else digits_value digits 0)%Z.

(** A number at the head of [s]: its value, or the exception of its
    conversion, and the text after it. *)
Definition match_number (s : string) : option (outcome pyobj * string * nat) :=
  match match_integer s with
  | None => None
  | Some (integer, r) =>
      let '(frac, r1) := match_frac r in
      let '(exp, r2) := match_exp r1 in
      let literal := integer +:+ frac +:+ exp in
      match frac +:+ exp with
      | "" =>
          match parse_int integer with
          | Ok z => Some (Ok (PyInt z), r2, String.length literal)
          | Exc e => Some (Exc e, r2, String.length literal)
          end
      | _ => Some (Ok (PyFloat literal), r2, String.length literal)
      end
  end.

Fixpoint drop (n : nat) (s : string) : string :=
  match n, s with
  | S n', String _ rest => drop n' rest
  | _, _ => s
  end.

(** A literal name or a number at the head of [s] (the cases of [scan_once]
    other than strings, objects and arrays). *)
Definition scan_atom (s : string) (pos : nat) : scanned pyobj :=
  if String.prefix "null" s then At PyNone (drop 4 s) (pos + 4)
  else if String.prefix "true" s then At (PyBool true) (drop 4 s) (pos + 4)
  else if String.prefix "false" s then At (PyBool false) (drop 5 s) (pos + 5)
  else
    match match_number s with
    | Some (Ok v, rest, n) => At v rest (pos + n)
    | Some (Exc e, _, _) => Raised e
    | None =>
        if String.prefix "NaN" s then At (PyFloat "NaN") (drop 3 s) (pos + 3)
        else if String.prefix "Infinity" s then At (PyFloat "Infinity") (drop 8 s) (pos + 8)
        else if String.prefix "-Infinity" s then At (PyFloat "-Infinity") (drop 9 s) (pos + 9)
        else Bad "Expecting value" pos
    end.

(** [RecursionError] on entering a container the interpreter has no room
    for; [what] is [array] or [object]. *)
Definition recursion_error (what : string) : exn :=
  OtherError "RecursionError"
    ("maximum recursion depth exceeded while decoding a JSON " +:+ what
     +:+ " from a unicode string").

(** [scan_once], with the scanning of an array and of an object after the
    opening bracket and the white space behind it.  [depth] is the number of
    nested containers the interpreter has room for; [fuel] bounds the
    recursion of the decoder. *)
Fixpoint scan_once (fuel depth : nat) (s : string) (pos : nat) {struct fuel}
  : scanned pyobj :=
  match fuel with
  | 0 => TooDeep
  | S fuel =>
      match s with
      | "" => Bad "Expecting value" pos
      | String c rest =>
          if (c =? dquote)%char then scanned_map PyStr (scanstring pos rest (S pos))
          else if (c =? "{")%char then
            match depth with
            | 0 => Raised (recursion_error "object")
            | S depth =>
                let '(s1, p1) := skip_ws rest (S pos) in
                if String.prefix "}" s1 then At (PyDict []) (drop 1 s1) (S p1)
                else scanned_map (fun pairs => PyDict (dict pairs))
                                 (object_pairs fuel depth s1 p1)
            end
          else if (c =? "[")%char then
            match depth with
            | 0 => Raised (recursion_error "array")
            | S depth =>
                let '(s1, p1) := skip_ws rest (S pos) in
                if String.prefix "]" s1 then At (PyList []) (drop 1 s1) (S p1)
                else scanned_map PyList (array_values fuel depth s1 p1)
            end
          else scan_atom s pos
      end
  end
with array_values (fuel depth : nat) (s : string) (pos : nat) {struct fuel}
  : scanned (list pyobj) :=
  match fuel with
  | 0 => TooDeep
  | S fuel =>
      match scan_once fuel depth s pos with
      | At v rest p =>
          let '(s1, p1) := skip_ws rest p in
          if String.prefix "]" s1 then At [v] (drop 1 s1) (S p1)
          else if String.prefix "," s1 then
            let '(s2, p2) := skip_ws (drop 1 s1) (S p1) in
            scanned_map (cons v) (array_values fuel depth s2 p2)
          else Bad "Expecting ',' delimiter" p1
      | Bad msg p => Bad msg p
      | Raised e => Raised e
      | TooDeep => TooDeep
      end
  end
with object_pairs (fuel depth : nat) (s : string) (pos : nat) {struct fuel}
  : scanned (list (string * pyobj)) :=
  match fuel with
  | 0 => TooDeep
  | S fuel =>
      match s with
      | String c rest =>
          if (c =? dquote)%char then
            match scanstring pos rest (S pos) with
            | At key rest0 p0 =>
                let '(s1, p1) := skip_ws rest0 p0 in
                if String.prefix ":" s1 then
                  let '(s2, p2) := skip_ws (drop 1 s1) (S p1) in
                  match scan_once fuel depth s2 p2 with
                  | At v rest3 p3 =>
                      let '(s4, p4) := skip_ws rest3 p3 in
                      if String.prefix "}" s4 then At [(key, v)] (drop 1 s4) (S p4)
                      else if String.prefix "," s4 then
                        let '(s5, p5) := skip_ws (drop 1 s4) (S p4) in
                        scanned_map (cons (key, v)) (object_pairs fuel depth s5 p5)
                      else Bad "Expecting ',' delimiter" p4
                  | Bad msg p => Bad msg p
                  | Raised e => Raised e
                  | TooDeep => TooDeep
                  end
                else Bad "Expecting ':' delimiter" p1
            | Bad msg p => Bad msg p
            | Raised e => Raised e
            | TooDeep => TooDeep
            end
          else Bad "Expecting property name enclosed in double quotes" pos
      | "" => Bad "Expecting property name enclosed in double quotes" pos
      end
  end.

(** The line and column (both from 1) of position [pos] of [doc]. *)
Fixpoint line_col (doc : string) (pos : nat) (line col : nat) : nat * nat :=
  match pos, doc with
  | S pos', String c rest =>
      if (c =? newline)%char then line_col rest pos' (S line) 1
      else line_col rest pos' line (S col)
  | _, _ => (line, col)
  end.

(** [str(JSONDecodeError(msg, doc, pos))]. *)
Definition errmsg (msg doc : string) (pos : nat) : string :=
  let '(lineno, colno) := line_col doc pos 1 1 in
  msg +:+ ": line " +:+ decimal lineno +:+ " column " +:+ decimal colno
      +:+ " (char " +:+ decimal pos +:+ ")".

(** The byte order mark U+FEFF in UTF-8. *)
Definition bom : string := byte 0xEF +:+ byte 0xBB +:+ byte 0xBF.

(** [json.loads] on a [str] when the interpreter has room for [depth] nested
    containers.  The fuel is twice the length of the text and two more,
    which no text uses up. *)
Definition loads_within (depth : nat) (s : string) : outcome pyobj :=
  if String.prefix bom s then
    Exc (JSONDecodeError (errmsg "Unexpected UTF-8 BOM (decode using utf-8-sig)" s 0))
  else
    let '(s0, p0) := skip_ws s 0 in
    match scan_once (2 * String.length s + 2) depth s0 p0 with
    | At obj rest p =>
        let '(s1, p1) := skip_ws rest p in
        match s1 with
        | "" => Ok obj
        | _ => Exc (JSONDecodeError (errmsg "Extra data" s p1))
        end
    | Bad msg p => Exc (JSONDecodeError (errmsg msg s p))
    | Raised e => Exc e
    | TooDeep => Exc (OtherError "RecursionError" "maximum recursion depth exceeded")
    end.

(** [json.loads] with room for all the containers a text of this length can
    nest. *)
Definition loads (s : string) : outcome pyobj := loads_within (String.length s) s.

(** A quoted JSON string, for writing JSON texts: [q "name"] is the text of
    the four letters between two quotation marks. *)
Definition q (s : string) : string := String dquote s +:+ String dquote "".

(** A scan makes progress on [s]: it stays within the bound on the nesting,
    and a value comes with strictly less text left than [s]. *)
Definition consumes {A : Type} (s : string) (r : scanned A) : Prop :=
  match r with
  | At _ rest _ => String.length rest < String.length s
  | Bad _ _ => True
  | Raised _ => True
  | TooDeep => False
  end.

(** A scan raised nothing but [JSONDecodeError] or the [ValueError] of an
    [int] too long. *)
Definition calm {A : Type} (r : scanned A) : Prop :=
  match r with
  | Raised e => exists msg, e = OtherError "ValueError" msg
  | _ => True
  end.

End Json.

(** ** The JSON texts of RFC 8259

    The grammar of the RFC as a recognizer, to compare with what [json.loads]
    accepts: a text is white space, a value, white space; a value is an
    object, an array, a string, a number or one of the names [false], [null]
    and [true].  Strings and numbers are those of the decoder above; the
    names [NaN], [Infinity] and [-Infinity] are no values. *)
Module Rfc8259.

Definition ws (s : string) : string := (Json.skip_ws s 0).1.

(** The text after a name or a number at the head of [s]. *)
Definition literal (s : string) : option string :=
  if String.prefix "false" s then Some (Json.drop 5 s)
  else if String.prefix "null" s then Some (Json.drop 4 s)
  else if String.prefix "true" s then Some (Json.drop 4 s)
  else
    match Json.match_integer s with
    | Some (_, r) => Some (Json.match_exp (Json.match_frac r).2).2
    | None => None
    end.

(** The text after a string whose opening quote has been read. *)
Definition chars (s : string) : option string :=
  match Json.scanstring 0 s 0 with
  | Json.At _ rest _ => Some rest
  | _ => None
  end.

(** The text after a value at the head of [s]; after the elements of an
    array and its closing bracket; after the members of an object and its
    closing brace. *)
Fixpoint value (fuel : nat) (s : string) {struct fuel} : option string :=
  match fuel with
  | 0 => None
  | S fuel =>
      match s with
      | "" => None
      | String c rest =>
          if (c =? Json.dquote)%char then chars rest
          else if (c =? "{")%char then
            if String.prefix "}" (ws rest) then Some (Json.drop 1 (ws rest))
            else members fuel (ws rest)
          else if (c =? "[")%char then
            if String.prefix "]" (ws rest) then Some (Json.drop 1 (ws rest))
            else elements fuel (ws rest)
          else literal s
      end
  end
with elements (fuel : nat) (s : string) {struct fuel} : option string :=
  match fuel with
  | 0 => None
  | S fuel =>
      match value fuel s with
      | Some rest =>
          if String.prefix "]" (ws rest) then Some (Json.drop 1 (ws rest))
          else if String.prefix "," (ws rest) then
            elements fuel (ws (Json.drop 1 (ws rest)))
          else None
      | None => None
      end
  end
with members (fuel : nat) (s : string) {struct fuel} : option string :=
  match fuel with
  | 0 => None
  | S fuel =>
      match s with
      | String c rest =>
          if (c =? Json.dquote)%char then
            match chars rest with
            | Some rest0 =>
                if String.prefix ":" (ws rest0) then
                  match value fuel (ws (Json.drop 1 (ws rest0))) with
                  | Some rest1 =>
                      if String.prefix "}" (ws rest1) then Some (Json.drop 1 (ws rest1))
                      else if String.prefix "," (ws rest1) then
                        members fuel (ws (Json.drop 1 (ws rest1)))
                      else None
                  | None => None
                  end
                else None
            | None => None
            end
          else None
      | "" => None
      end
  end.

(** [s] is a JSON text. *)
Definition text (s : string) : bool :=
  match value (2 * String.length s + 2) (ws s) with
  | Some rest => bool_decide (ws rest = "")
  | None => false
  end.

End Rfc8259.

(** [n] copies of [s] in a row. *)
Fixpoint copies (n : nat) (s : string) : string :=
  match n with
  | 0 => ""
  | S n => s +:+ copies n s
  end.

(** ** The tool registry *)

(** A parameter declared as [Annotated[type, Field(description=..., default=...)]]:
    [param_optional] tells [Optional[str]] from [str], [param_default] is
    [None] when the parameter is required. *)
Record param : Type := {
  param_name : string;
  param_optional : bool;
  param_description : string;
  param_default : option pyobj
}.

(** The coroutine function behind a tool, by the type of its one parameter. *)
Inductive tool_body : Type :=
| OptStrBody (body : option string -> coro pyobj)
| StrBody (body : string -> coro pyobj).

Record tool_fn : Type := {
  fn_name : string;
  fn_doc : string;
  fn_param : param;
  fn_body : tool_body
}.

(** One registration with the host registry. *)
Record registered : Type := {
  reg_category : string;
  reg_name : string;
  reg_title : string;
  reg_annotations : option (list (string * pyobj));
  reg_fn : tool_fn
}.

(** The registrations a [FastMCP] instance has received, oldest first. *)
Definition registry : Type := list registered.

(** Modelled from the spec: the decorator [SensorTowerTool.tool] of the base
    class (module [..base], not part of the sources at hand), a registration
    call that accepts a name, a title, optional annotation metadata and a
    callable, and declares the operation to the host registry under the
    category the provider is attached to. *)
Definition tool (category : string) (mcp : registry) (name title : string)
  (annotations : option (list (string * pyobj))) (fn : tool_fn) : registry :=
  mcp ++ [{| reg_category := category; reg_name := name; reg_title := title;
             reg_annotations := annotations; reg_fn := fn |}].

(** ** The module *)

(** Truth value of a [str]: only the empty string is false. *)
Definition str_truthy (s : string) : bool :=
  match s with
  | "" => false
  | _ => true
  end.

Module CustomFieldsTools.
Section Tools.

(** [json.loads]: the object decoded, or the exception raised. *)
Variable json_loads : string -> outcome pyobj.

Definition category : string := "CustomFields".

Definition get_custom_fields_values (term : option string) : coro pyobj :=
  let params : gmap string string := ∅ in
  let params :=
    match term with
    | Some t => if str_truthy t then <["term" := t]> params else params
    | None => params
    end in
  await (MakeRequest "/v1/custom_fields_filter/fields_values" params).

Definition create_custom_fields_filter (custom_fields : string) : coro pyobj :=
  fields_list ←
    try_except (of_outcome (json_loads custom_fields))
      (fun e =>
         match e with
         | JSONDecodeError _ =>
             Raise (ToolError ("Invalid JSON for custom_fields: " +:+ exn_str e))
         | _ => Raise e
         end);
  await (MakePostRequest "/v1/custom_fields_filter"
           (PyDict [("custom_fields", fields_list)])).

Definition show_custom_fields_filter (filter_id : string) : coro pyobj :=
  await (MakeRequest ("/v1/custom_fields_filter/" +:+ filter_id) ∅).

Definition get_custom_fields_values_fn : tool_fn := {|
  fn_name := "get_custom_fields_values";
  fn_doc := "List all available custom fields and their possible filter values. Use this to discover which filters exist before creating a custom fields filter.";
  fn_param := {|
    param_name := "term";
    param_optional := true;
    param_description := "Search by field names (e.g. 'Revenue', 'Release Date', 'Retention')";
    param_default := Some PyNone |};
  fn_body := OptStrBody get_custom_fields_values
|}.

Definition custom_fields_description : string :=
  "JSON array of filter objects. Each object needs: " +:+ Json.q "name"
  +:+ " (field name), " +:+ Json.q "global" +:+ " (true for built-in fields), "
  +:+ Json.q "values" +:+ " (array of allowed values). Optional: "
  +:+ Json.q "exclude" +:+ " (true to exclude matching values). Example: [{"
  +:+ Json.q "name" +:+ ": " +:+ Json.q "Earliest Release Date" +:+ ", "
  +:+ Json.q "global" +:+ ": true, " +:+ Json.q "values" +:+ ": ["
  +:+ Json.q "2026/01" +:+ ", " +:+ Json.q "2026/02" +:+ "]}, {"
  +:+ Json.q "name" +:+ ": " +:+ Json.q "Last 30 Days Revenue (WW)" +:+ ", "
  +:+ Json.q "global" +:+ ": true, " +:+ Json.q "values" +:+ ": ["
  +:+ Json.q "5K - 50K" +:+ ", " +:+ Json.q "50K - 100K" +:+ "]}]".

Definition create_custom_fields_filter_fn : tool_fn := {|
  fn_name := "create_custom_fields_filter";
  fn_doc := "Create a reusable custom fields filter and get its ID. Use get_custom_fields_values first to discover valid field names and values. Pass the returned filter ID to get_top_and_trending or usage_top_apps via custom_fields_filter_id.";
  fn_param := {|
    param_name := "custom_fields";
    param_optional := false;
    param_description := custom_fields_description;
    param_default := None |};
  fn_body := StrBody create_custom_fields_filter
|}.

Definition show_custom_fields_filter_fn : tool_fn := {|
  fn_name := "show_custom_fields_filter";
  fn_doc := "Show the field names and values of an existing custom fields filter.";
  fn_param := {|
    param_name := "filter_id";
    param_optional := false;
    param_description := "Custom fields filter ID returned by create_custom_fields_filter";
    param_default := None |};
  fn_body := StrBody show_custom_fields_filter
|}.

Definition register_tools (mcp : registry) : registry :=
  let mcp :=
    tool category mcp "get_custom_fields_values" "Get Custom Fields Values"
      None get_custom_fields_values_fn in
  let mcp :=
    tool category mcp "create_custom_fields_filter" "Create Custom Fields Filter"
      (Some [("title", PyStr "Create Custom Fields Filter");
             ("readOnlyHint", PyBool false);
             ("idempotentHint", PyBool false);
             ("openWorldHint", PyBool true)])
      create_custom_fields_filter_fn in
  let mcp :=
    tool category mcp "show_custom_fields_filter" "Show Custom Fields Filter"
      None show_custom_fields_filter_fn in
  mcp.

End Tools.
End CustomFieldsTools.

(** ** Observations on a run *)

(** The three operations with their inputs. *)
Inductive invocation : Type :=
| GetValues (term : option string)
| CreateFilter (custom_fields : string)
| ShowFilter (filter_id : string).

Definition invoke (json_loads : string -> outcome pyobj) (i : invocation) : coro pyobj :=
  match i with
  | GetValues term => CustomFieldsTools.get_custom_fields_values term
  | CreateFilter custom_fields =>
      CustomFieldsTools.create_custom_fields_filter json_loads custom_fields
  | ShowFilter filter_id => CustomFieldsTools.show_custom_fields_filter filter_id
  end.

(** The read request of get-values with the parameters [params]. *)
Definition values_request (params : gmap string string) : call :=
  MakeRequest "/v1/custom_fields_filter/fields_values" params.

(** The write request that carries [fields_list]. *)
Definition create_request (fields_list : pyobj) : call :=
  MakePostRequest "/v1/custom_fields_filter" (PyDict [("custom_fields", fields_list)]).

(** The read request that shows [filter_id]. *)
Definition show_request (filter_id : string) : call :=
  MakeRequest ("/v1/custom_fields_filter/" +:+ filter_id) ∅.

Definition request_path (c : call) : string :=
  match c with
  | MakeRequest path _ => path
  | MakePostRequest path _ => path
  end.

(** The JSON bodies among the calls made: only a write request has one. *)
Definition json_bodies (cs : list call) : list pyobj :=
  omap (fun c => match c with
                 | MakePostRequest _ json_body => Some json_body
                 | MakeRequest _ _ => None
                 end) cs.

Definition is_array (v : pyobj) : bool :=
  match v with
  | PyList _ => true
  | _ => false
  end.

(** The segments of a path between its slashes. *)
Fixpoint segments (path : string) : list string :=
  match path with
  | "" => [""]
  | String c rest =>
      if (c =? "/")%char then "" :: segments rest
      else
        match segments rest with
        | seg :: more => String c seg :: more
        | [] => [String c ""]
        end
  end.

(** What a registration shows the host registry. *)
Definition listing (r : registered) : string * string * string :=
  (reg_category r, reg_name r, reg_title r).

(** ** A remote service for the examples *)
Module Mock.

(** The filters created so far, each under the path that shows it. *)
Definition world : Type := list (string * pyobj).

Definition service (c : call) (w : world) : outcome pyobj * world :=
  match c with
  | MakePostRequest path json_body =>
      let filter_id := "f" +:+ Json.decimal (length w) in
      (Ok (PyDict [("custom_fields_filter_id", PyStr filter_id)]),
       w ++ [(path +:+ "/" +:+ filter_id, json_body)])
  | MakeRequest path params =>
      if String.eqb path "/v1/custom_fields_filter/fields_values" then
        (Ok (PyDict [("custom_fields", PyList [])]), w)
      else
        match dict_get path w with
        | Some json_body => (Ok json_body, w)
        | None => (Exc (OtherError "HTTPStatusError" "404 Not Found"), w)
        end
  end.

(** A facility out of reach: every request fails. *)
Definition offline (c : call) (w : world) : outcome pyobj * world :=
  (Exc (OtherError "ConnectError" "All connection attempts failed"), w).

(** The text of a filter of two specifications, the second with [exclude]. *)
Definition two_fields : string :=
  "[{" +:+ Json.q "name" +:+ ": " +:+ Json.q "Earliest Release Date" +:+ ", "
  +:+ Json.q "global" +:+ ": true, " +:+ Json.q "values" +:+ ": ["
  +:+ Json.q "2026/01" +:+ ", " +:+ Json.q "2026/02" +:+ "]}, {"
  +:+ Json.q "name" +:+ ": " +:+ Json.q "Last 30 Days Revenue (WW)" +:+ ", "
  +:+ Json.q "global" +:+ ": true, " +:+ Json.q "values" +:+ ": ["
  +:+ Json.q "5K - 50K" +:+ "], " +:+ Json.q "exclude" +:+ ": true}]".

Definition two_fields_parsed : list pyobj :=
  [PyDict [("name", PyStr "Earliest Release Date"); ("global", PyBool true);
           ("values", PyList [PyStr "2026/01"; PyStr "2026/02"])];
   PyDict [("name", PyStr "Last 30 Days Revenue (WW)"); ("global", PyBool true);
           ("values", PyList [PyStr "5K - 50K"]); ("exclude", PyBool true)]].

End Mock.

(** ** Further observations *)

(** The number of constructors of a value. *)
Fixpoint size (o : pyobj) : nat :=
  match o with
  | PyList items =>
      S ((fix sum (l : list pyobj) : nat :=
            match l with
            | [] => 0
            | x :: rest => size x + sum rest
            end) items)
  | PyDict items =>
      S ((fix sum (l : list (string * pyobj)) : nat :=
            match l with
            | [] => 0
            | (_, v) :: rest => size v + sum rest
            end) items)
  | _ => 1
  end.

(** A registration is consistent: the tool is named after the function it
    registers, a title among the annotations is the title of the
    registration, and the parameter has a default exactly when its type is
    [Optional]. *)
Definition well_declared (r : registered) : Prop :=
  reg_name r = fn_name (reg_fn r)
  /\ (forall hints, reg_annotations r = Some hints ->
        dict_get "title" hints = Some (PyStr (reg_title r)))
  /\ (is_Some (param_default (fn_param (reg_fn r)))
      <-> param_optional (fn_param (reg_fn r)) = true).

(** A facility whose answers are not JSON: decoding the response fails. *)
Definition garbled {World : Type} (c : call) (w : World) : outcome pyobj * World :=
  (Exc (JSONDecodeError "Expecting value: line 1 column 1 (char 0)"), w).

(** A [json.loads] that hits the interpreter's limit on every text. *)
Definition loads_too_deep (s : string) : outcome pyobj :=
  Exc (OtherError "RecursionError" "maximum recursion depth exceeded").

(** * Properties *)

(** ** The decoder: every scan makes progress, so [loads] is total *)
Section DecoderFacts.
Import Json.

Lemma consumes_map {A B : Type} (f : A -> B) (s : string) (r : scanned A) :
  consumes s r -> consumes s (scanned_map f r).
Proof. by destruct r. Qed.

Lemma consumes_weaken {A : Type} (s s' : string) (r : scanned A) :
  String.length s <= String.length s' -> consumes s r -> consumes s' r.
Proof. destruct r; simpl; [lia | done | done | done]. Qed.

Lemma calm_map {A B : Type} (f : A -> B) (r : scanned A) :
  calm r -> calm (scanned_map f r).
Proof. by destruct r. Qed.

Lemma skip_ws_length (s : string) (pos : nat) :
  String.length (skip_ws s pos).1 <= String.length s.
Proof.
  revert pos. induction s as [| c s IH]; intros pos; simpl; [lia |].
  destruct (is_ws c); simpl; [specialize (IH (S pos)) |]; lia.
Qed.

Ltac by_smaller IH :=
  apply consumes_map; (eapply consumes_weaken; [| apply IH]); cbn [String.length] in *; lia.

Lemma scanstring_consumes (s : string) (begin pos : nat) :
  consumes s (scanstring begin s pos).
Proof.
  remember (String.length s) as n eqn:Hn.
  assert (String.length s <= n) as Hle by lia. clear Hn.
  revert s begin pos Hle.
  induction n as [| n IH]; intros s begin pos Hle.
  - destruct s; [done | cbn [String.length] in Hle; lia].
  - destruct s as [| c rest]; [done |].
    cbn [String.length] in Hle. cbn [scanstring].
    destruct (c =? dquote)%char; [cbn; lia |].
    destruct (c =? backslash)%char.
    2:{ destruct (nat_of_ascii c <=? 31)%nat; [done |]. by_smaller IH. }
    destruct rest as [| e rest1]; [done |].
    destruct (e =? "u")%char.
    2:{ destruct (unescape e); [| done]. by_smaller IH. }
    destruct rest1 as [| h1 [| h2 [| h3 [| h4 [| b rest2]]]]]; try done.
    destruct (hex4 h1 h2 h3 h4) as [hi |]; [| done].
    destruct rest2 as [| u [| l1 [| l2 [| l3 [| l4 [| x rest3]]]]]];
      try by_smaller IH.
    destruct (is_high_surrogate hi && (b =? backslash)%char && (u =? "u")%char);
      [| by_smaller IH].
    destruct (hex4 l1 l2 l3 l4) as [lo |]; [| done].
    destruct (is_low_surrogate lo); by_smaller IH.
Qed.

(** A string scan raises nothing but [JSONDecodeError]. *)
Lemma scanstring_calm (s : string) (begin pos : nat) : calm (scanstring begin s pos).
Proof.
  remember (String.length s) as n eqn:Hn.
  assert (String.length s <= n) as Hle by lia. clear Hn.
  revert s begin pos Hle.
  induction n as [| n IH]; intros s begin pos Hle.
  - destruct s; [done | cbn [String.length] in Hle; lia].
  - assert (forall {B} (f : string -> B) s' p,
              String.length s' <= n -> calm (scanned_map f (scanstring begin s' p)))
      as Hrec by (intros; apply calm_map, IH; done).
    destruct s as [| c rest]; [done |].
    cbn [String.length] in Hle. cbn [scanstring].
    destruct (c =? dquote)%char; [done |].
    destruct (c =? backslash)%char.
    2:{ destruct (nat_of_ascii c <=? 31)%nat; [done |]. apply Hrec. lia. }
    destruct rest as [| e rest1]; [done |]. cbn [String.length] in Hle.
    destruct (e =? "u")%char.
    2:{ destruct (unescape e); [| done]. apply Hrec. lia. }
    destruct rest1 as [| h1 [| h2 [| h3 [| h4 [| b rest2]]]]]; try done.
    cbn [String.length] in Hle.
    destruct (hex4 h1 h2 h3 h4) as [hi |]; [| done].
    destruct rest2 as [| u [| l1 [| l2 [| l3 [| l4 [| x rest3]]]]]];
      try (apply Hrec; cbn [String.length]; lia).
    cbn [String.length] in Hle.
    destruct (is_high_surrogate hi && (b =? backslash)%char && (u =? "u")%char);
      [| apply Hrec; cbn [String.length]; lia].
    destruct (hex4 l1 l2 l3 l4) as [lo |]; [| done].
    destruct (is_low_surrogate lo); apply Hrec; cbn [String.length]; lia.
Qed.
Lemma take_digits_length (s : string) :
  String.length (take_digits s).2 <= String.length s.
Proof.
  induction s as [| c s IH]; cbn [take_digits]; [done |].
  destruct (is_digit c); [| done].
  destruct (take_digits s) as [ds r]. cbn [snd String.length] in *. lia.
Qed.

Lemma match_integer_length (s literal rest : string) :
  match_integer s = Some (literal, rest) -> String.length rest < String.length s.
Proof.
  unfold match_integer. intros H.
  assert (forall s1 sign,
            match s1 with
            | String c r =>
                if (c =? "0")%char then Some (sign +:+ "0", r)
                else if is_digit c then
                       let '(ds, r') := take_digits s1 in Some (sign +:+ ds, r')
                     else None
            | "" => None
            end = Some (literal, rest) ->
            String.length rest < String.length s1) as Hdigits.
  { intros [| c r] sign; [done |].
    destruct (c =? "0")%char; [intros [= _ <-]; cbn; lia |].
    destruct (is_digit c) eqn:Hc; [| done].
    pose proof (take_digits_length r) as Hlen.
    cbn [take_digits]. rewrite Hc.
    destruct (take_digits r) as [ds r']. intros [= _ <-].
    cbn [snd String.length] in *. lia. }
  destruct s as [| c r]; [done |].
  destruct (c =? "-")%char.
  - apply Hdigits in H. cbn [String.length]. lia.
  - by apply (Hdigits (String c r) "") in H.
Qed.

Lemma match_frac_length (s : string) :
  String.length (match_frac s).2 <= String.length s.
Proof.
  destruct s as [| c r]; [done |]. cbn [match_frac].
  destruct (c =? ".")%char; [| done].
  pose proof (take_digits_length r) as Hlen.
  destruct (take_digits r) as [[| d ds] r']; [done |].
  cbn [snd String.length] in *. lia.
Qed.

Lemma match_exp_length (s : string) :
  String.length (match_exp s).2 <= String.length s.
Proof.
  destruct s as [| e r]; [done |]. cbn [match_exp].
  destruct ((e =? "e")%char || (e =? "E")%char); [| done].
  assert (exists sign r1,
            match r with
            | String c r' =>
                if (c =? "-")%char || (c =? "+")%char then (String c "", r') else ("", r)
            | "" => ("", r)
            end = (sign, r1) /\ String.length r1 <= String.length r)
    as (sign & r1 & -> & Hr1).
  { destruct r as [| c r']; [by exists "", "" |].
    destruct ((c =? "-")%char || (c =? "+")%char).
    - exists (String c ""), r'. cbn. split; [done | lia].
    - by exists "", (String c r'). }
  pose proof (take_digits_length r1) as Hlen.
  destruct (take_digits r1) as [[| d ds] r2]; [done |].
  cbn [snd String.length] in *. lia.
Qed.

Lemma match_number_length (s : string) (o : outcome pyobj) (rest : string) (n : nat) :
  match_number s = Some (o, rest, n) -> String.length rest < String.length s.
Proof.
  unfold match_number.
  destruct (match_integer s) as [[integer r] |] eqn:Hint; [| done].
  apply match_integer_length in Hint.
  pose proof (match_frac_length r) as Hfrac.
  destruct (match_frac r) as [frac r1].
  pose proof (match_exp_length r1) as Hexp.
  destruct (match_exp r1) as [exp r2]. cbn [snd] in *.
  destruct (frac +:+ exp); [destruct (parse_int integer) |];
    intros [= _ <- _]; lia.
Qed.

Lemma match_number_calm (s : string) (e : exn) (rest : string) (n : nat) :
  match_number s = Some (Exc e, rest, n) -> exists msg, e = OtherError "ValueError" msg.
Proof.
  unfold match_number.
  destruct (match_integer s) as [[integer r] |]; [| done].
  destruct (match_frac r) as [frac r1]. destruct (match_exp r1) as [exp r2].
  destruct (frac +:+ exp); [| done].
  unfold parse_int.
  destruct (match integer with
            | String c rest0 => if (c =? "-")%char then (true, rest0) else (false, integer)
            | "" => (false, integer)
            end) as [negative digits].
  destruct (int_max_str_digits <? String.length digits)%nat; [| done].
  intros [= <- _ _]. by eexists.
Qed.

Lemma drop_prefix_length (p s : string) (n : nat) :
  String.prefix p s = true -> p ≠ "" -> 0 < n ->
  String.length (drop n s) < String.length s.
Proof.
  intros Hp Hne Hn.
  destruct s as [| c s]; [by destruct p |].
  destruct n as [| n]; [lia |]. cbn [drop String.length].
  clear. revert n. induction s as [| c s IH]; intros [| n]; cbn [drop String.length]; try lia.
  specialize (IH n). lia.
Qed.

Ltac by_prefix s :=
  repeat match goal with
         | |- consumes _ (if String.prefix ?p s then _ else _) =>
             let H := fresh "H" in
             destruct (String.prefix p s) eqn:H;
             [by apply (drop_prefix_length p); [| | lia] |]
         end.

Lemma scan_atom_consumes (s : string) (pos : nat) : consumes s (scan_atom s pos).
Proof.
  unfold scan_atom. by_prefix s.
  destruct (match_number s) as [[[[v | e] rest] n] |] eqn:Hnum.
  - by apply match_number_length in Hnum.
  - done.
  - by_prefix s. done.
Qed.

Lemma scan_atom_calm (s : string) (pos : nat) : calm (scan_atom s pos).
Proof.
  unfold scan_atom.
  repeat match goal with
         | |- calm (if ?b then _ else _) => destruct b; [done |]
         end.
  destruct (match_number s) as [[[[v | e] rest] n] |] eqn:Hnum.
  - done.
  - by apply match_number_calm in Hnum.
  - repeat match goal with
           | |- calm (if ?b then _ else _) => destruct b; [done |]
           end.
    done.
Qed.

Ltac skip_ws_as s p s1 p1 H :=
  pose proof (skip_ws_length s p) as H;
  destruct (skip_ws s p) as [s1 p1]; cbn [fst] in H.

Ltac drop_one p s H :=
  pose proof (drop_prefix_length p s 1 H ltac:(done) ltac:(lia)).

(** With fuel for the length of the text every scan makes progress, and with
    room for as many containers as the text has characters it raises no
    [RecursionError]. *)
Lemma scan_consumes (fuel depth : nat) :
  (forall s pos,
     2 * String.length s + 1 <= fuel ->
     consumes s (scan_once fuel depth s pos)
     /\ (String.length s <= depth -> calm (scan_once fuel depth s pos)))
  /\ (forall s pos,
        2 * String.length s + 2 <= fuel ->
        consumes s (array_values fuel depth s pos)
        /\ (String.length s <= depth -> calm (array_values fuel depth s pos)))
  /\ (forall s pos,
        2 * String.length s + 2 <= fuel ->
        consumes s (object_pairs fuel depth s pos)
        /\ (String.length s <= depth -> calm (object_pairs fuel depth s pos))).
Proof.
  revert depth.
  induction fuel as [| fuel IH]; intros depth.
  { split; [| split]; intros s pos Hfuel; lia. }
  split; [| split]; intros s pos Hfuel.
  - destruct s as [| c rest]; [done |].
    cbn [scan_once]. cbn [String.length] in Hfuel.
    destruct (c =? dquote)%char.
    { split.
      - apply consumes_map. eapply consumes_weaken; [| apply scanstring_consumes].
        cbn [String.length]. lia.
      - intros _. apply calm_map, scanstring_calm. }
    destruct (c =? "{")%char.
    { destruct depth as [| depth].
      { split; [done |]. cbn [String.length]. lia. }
      destruct (IH depth) as (_ & _ & IHobject).
      skip_ws_as rest (S pos) s1 p1 Hs1.
      destruct (String.prefix "}" s1) eqn:Hclose.
      - drop_one "}" s1 Hclose. split; [| done]. cbn [consumes String.length]. lia.
      - destruct (IHobject s1 p1 ltac:(lia)) as [Hconsumes Hcalm]. split.
        + apply consumes_map. eapply consumes_weaken; [| exact Hconsumes].
          cbn [String.length]. lia.
        + cbn [String.length]. intros Hdepth. apply calm_map, Hcalm. lia. }
    destruct (c =? "[")%char.
    { destruct depth as [| depth].
      { split; [done |]. cbn [String.length]. lia. }
      destruct (IH depth) as (_ & IHarray & _).
      skip_ws_as rest (S pos) s1 p1 Hs1.
      destruct (String.prefix "]" s1) eqn:Hclose.
      - drop_one "]" s1 Hclose. split; [| done]. cbn [consumes String.length]. lia.
      - destruct (IHarray s1 p1 ltac:(lia)) as [Hconsumes Hcalm]. split.
        + apply consumes_map. eapply consumes_weaken; [| exact Hconsumes].
          cbn [String.length]. lia.
        + cbn [String.length]. intros Hdepth. apply calm_map, Hcalm. lia. }
    split; [apply scan_atom_consumes | intros _; apply scan_atom_calm].
  - destruct (IH depth) as (IHscan & IHarray & _).
    cbn [array_values].
    destruct (IHscan s pos ltac:(lia)) as [Hvalue Hvalue_calm].
    destruct (scan_once fuel depth s pos) as [v rest p | msg p | e |];
      [| done | split; [done | exact Hvalue_calm] | done].
    cbn [consumes] in Hvalue.
    skip_ws_as rest p s1 p1 Hs1.
    destruct (String.prefix "]" s1) eqn:Hclose.
    { drop_one "]" s1 Hclose. split; [| done]. cbn [consumes]. lia. }
    destruct (String.prefix "," s1) eqn:Hcomma; [| done].
    drop_one "," s1 Hcomma.
    skip_ws_as (drop 1 s1) (S p1) s2 p2 Hs2.
    destruct (IHarray s2 p2 ltac:(lia)) as [Hconsumes Hcalm]. split.
    + apply consumes_map. eapply consumes_weaken; [| exact Hconsumes]. lia.
    + intros Hdepth. apply calm_map, Hcalm. lia.
  - destruct (IH depth) as (IHscan & _ & IHobject).
    cbn [object_pairs].
    destruct s as [| c rest]; [done |]. cbn [String.length] in Hfuel.
    destruct (c =? dquote)%char; [| done].
    pose proof (scanstring_consumes rest pos (S pos)) as Hkey.
    pose proof (scanstring_calm rest pos (S pos)) as Hkey_calm.
    destruct (scanstring pos rest (S pos)) as [key rest0 p0 | msg p | e |];
      [| done | split; [done | intros _; exact Hkey_calm] | done].
    cbn [consumes] in Hkey.
    skip_ws_as rest0 p0 s1 p1 Hs1.
    destruct (String.prefix ":" s1) eqn:Hcolon; [| done].
    drop_one ":" s1 Hcolon.
    skip_ws_as (drop 1 s1) (S p1) s2 p2 Hs2.
    destruct (IHscan s2 p2 ltac:(lia)) as [Hvalue Hvalue_calm].
    destruct (scan_once fuel depth s2 p2) as [v rest3 p3 | msg p | e |];
      [| done | split; [done |] | done].
    2:{ cbn [String.length]. intros Hdepth. apply Hvalue_calm. lia. }
    cbn [consumes] in Hvalue.
    skip_ws_as rest3 p3 s4 p4 Hs4.
    destruct (String.prefix "}" s4) eqn:Hclose.
    { drop_one "}" s4 Hclose. split; [| done]. cbn [consumes String.length]. lia. }
    destruct (String.prefix "," s4) eqn:Hcomma; [| done].
    drop_one "," s4 Hcomma.
    skip_ws_as (drop 1 s4) (S p4) s5 p5 Hs5.
    destruct (IHobject s5 p5 ltac:(lia)) as [Hconsumes Hcalm]. split.
    + apply consumes_map. eapply consumes_weaken; [| exact Hconsumes].
      cbn [String.length]. lia.
    + cbn [String.length]. intros Hdepth. apply calm_map, Hcalm. lia.
Qed.

(** [Json.loads] decodes, raises [JSONDecodeError], or raises the [ValueError]
    of an [int] too long: its fuel is never used up and its room for nesting
    never exceeded. *)
Lemma loads_total (s : string) :
  (exists obj, loads s = Ok obj)
  \/ (exists errmsg, loads s = Exc (JSONDecodeError errmsg))
  \/ (exists msg, loads s = Exc (OtherError "ValueError" msg)).
Proof.
  unfold loads, loads_within.
  destruct (String.prefix bom s); [right; left; eauto |].
  skip_ws_as s 0 s0 p0 Hs0.
  destruct (proj1 (scan_consumes (2 * String.length s + 2) (String.length s)) s0 p0
              ltac:(lia)) as [Hscan Hcalm].
  specialize (Hcalm Hs0).
  destruct (scan_once (2 * String.length s + 2) (String.length s) s0 p0)
    as [obj rest p | msg p | e |]; [| right; left; eauto | | done].
  - destruct (skip_ws rest p) as [[| c s1] p1]; [left | right; left]; eauto.
  - destruct Hcalm as [msg ->]. right. right. eauto.
Qed.

End DecoderFacts.

(** ** Running coroutines *)
Section RunFacts.
Context {World : Type}.
Variable facility : call -> World -> outcome pyobj * World.

Lemma run_await (c : call) (w : World) :
  run facility (await c) w = ((facility c w).1, (facility c w).2, [c]).
Proof.
  unfold await. simpl. destruct (facility c w) as [[v | e] w']; reflexivity.
Qed.

Lemma run_bind_return {A B : Type} (a : A) (f : A -> coro B) (w : World) :
  run facility (Return a ≫= f) w = run facility (f a) w.
Proof. reflexivity. Qed.

Lemma run_bind_raise {A B : Type} (e : exn) (f : A -> coro B) (w : World) :
  run facility (Raise e ≫= f) w = (Exc e, w, []).
Proof. reflexivity. Qed.

(** The calls of [m ≫= f] start with those of [m]. *)
Lemma calls_bind {A B : Type} (m : coro A) (f : A -> coro B) (w : World) :
  calls facility m w `prefix_of` calls facility (m ≫= f) w.
Proof.
  unfold calls. revert w.
  induction m as [a | e | c k IHk h IHh]; intros w.
  - apply prefix_nil.
  - apply prefix_nil.
  - change (Await c k h ≫= f) with (Await c (fun v => k v ≫= f) (fun e => h e ≫= f)).
    simpl. destruct (facility c w) as [[v | e] w'].
    + specialize (IHk v w').
      destruct (run facility (k v) w') as [[r1 w1] cs1].
      destruct (run facility (k v ≫= f) w') as [[r2 w2] cs2].
      simpl in *. by apply prefix_cons.
    + specialize (IHh e w').
      destruct (run facility (h e) w') as [[r1 w1] cs1].
      destruct (run facility (h e ≫= f) w') as [[r2 w2] cs2].
      simpl in *. by apply prefix_cons.
Qed.

(** A [try] whose body awaits nothing makes no call before its handler. *)
Lemma try_except_of_outcome {A : Type} (r : outcome A) (handler : exn -> coro A) :
  try_except (of_outcome r) handler =
  match r with
  | Ok a => Return a
  | Exc e => handler e
  end.
Proof. destruct r; reflexivity. Qed.

End RunFacts.

(** ** The three operations *)
Section OperationFacts.
Context {World : Type}.
Variable facility : call -> World -> outcome pyobj * World.
Variable json_loads : string -> outcome pyobj.

Import CustomFieldsTools.

Lemma get_params_truthy (t : string) :
  t ≠ "" ->
  get_custom_fields_values (Some t) =
  await (values_request {["term" := t]}).
Proof.
  intros Ht. unfold get_custom_fields_values.
  destruct t as [| c t']; [done |]. simpl. by rewrite insert_empty.
Qed.

Lemma get_params_falsy (term : option string) :
  term = None \/ term = Some "" ->
  get_custom_fields_values term = await (values_request ∅).
Proof. by intros [-> | ->]. Qed.

Lemma run_create_loaded (custom_fields : string) (fields_list : pyobj) (w : World) :
  json_loads custom_fields = Ok fields_list ->
  run facility (create_custom_fields_filter json_loads custom_fields) w =
  ((facility (create_request fields_list) w).1,
   (facility (create_request fields_list) w).2,
   [create_request fields_list]).
Proof.
  intros Hloads. unfold create_custom_fields_filter.
  rewrite Hloads, try_except_of_outcome, run_bind_return.
  apply run_await.
Qed.

Lemma run_create_decode_error (custom_fields diagnostic : string) (w : World) :
  json_loads custom_fields = Exc (JSONDecodeError diagnostic) ->
  run facility (create_custom_fields_filter json_loads custom_fields) w =
  (Exc (ToolError ("Invalid JSON for custom_fields: " +:+ diagnostic)), w, []).
Proof.
  intros Hloads. unfold create_custom_fields_filter.
  by rewrite Hloads, try_except_of_outcome, run_bind_raise.
Qed.

Lemma run_create_other_error (custom_fields : string) (e : exn) (w : World) :
  json_loads custom_fields = Exc e ->
  (forall diagnostic, e ≠ JSONDecodeError diagnostic) ->
  run facility (create_custom_fields_filter json_loads custom_fields) w = (Exc e, w, []).
Proof.
  intros Hloads Hclass. unfold create_custom_fields_filter.
  rewrite Hloads, try_except_of_outcome.
  destruct e as [d | msg | cls msg]; [by destruct (Hclass d) | done | done].
Qed.

Lemma run_show (filter_id : string) (w : World) :
  run facility (show_custom_fields_filter filter_id) w =
  ((facility (show_request filter_id) w).1,
   (facility (show_request filter_id) w).2,
   [show_request filter_id]).
Proof. apply run_await. Qed.

(** C1: when [custom_fields] parses as a JSON array, create-filter makes
    exactly one call, the write (POST) request to [/v1/custom_fields_filter]
    whose JSON body is the dict with the single key [custom_fields] bound to
    the parsed array itself (same elements, same order), and it returns what
    that request returns. *)
Theorem create_posts_parsed_array
  (custom_fields : string) (items : list pyobj) (w : World) :
  json_loads custom_fields = Ok (PyList items) ->
  let request :=
    MakePostRequest "/v1/custom_fields_filter"
      (PyDict [("custom_fields", PyList items)]) in
  calls facility (create_custom_fields_filter json_loads custom_fields) w = [request]
  /\ result facility (create_custom_fields_filter json_loads custom_fields) w
     = (facility request w).1
  /\ world_after facility (create_custom_fields_filter json_loads custom_fields) w
     = (facility request w).2.
Proof.
  intros Hloads request. unfold calls, result, world_after.
  by rewrite (run_create_loaded _ _ _ Hloads).
Qed.

(** C2, as amended: when [json.loads] rejects [custom_fields] with a
    [JSONDecodeError], create-filter fails with a [ToolError] whose message
    is [Invalid JSON for custom_fields: ] followed by the parser's
    diagnostic, and it calls neither [make_request] nor [make_post_request]:
    no call is made and the world outside is as before. *)
Theorem create_rejects_malformed_json
  (custom_fields diagnostic : string) (w : World) :
  json_loads custom_fields = Exc (JSONDecodeError diagnostic) ->
  result facility (create_custom_fields_filter json_loads custom_fields) w
  = Exc (ToolError ("Invalid JSON for custom_fields: " +:+ diagnostic))
  /\ calls facility (create_custom_fields_filter json_loads custom_fields) w = []
  /\ world_after facility (create_custom_fields_filter json_loads custom_fields) w = w.
Proof.
  intros Hloads. unfold calls, result, world_after.
  by rewrite (run_create_decode_error _ _ _ Hloads).
Qed.

(** C3: for a non-empty [term], get-values makes the read (GET) request to
    [/v1/custom_fields_filter/fields_values] with the parameters
    [{"term": term}] and nothing else; for [None] and for the empty string it
    makes the same request with empty parameters. *)
Theorem get_values_params (term : string) (w : World) :
  (term ≠ "" ->
   calls facility (get_custom_fields_values (Some term)) w
   = [MakeRequest "/v1/custom_fields_filter/fields_values" {["term" := term]}])
  /\ calls facility (get_custom_fields_values None) w
     = [MakeRequest "/v1/custom_fields_filter/fields_values" ∅]
  /\ calls facility (get_custom_fields_values (Some "")) w
     = [MakeRequest "/v1/custom_fields_filter/fields_values" ∅].
Proof.
  unfold calls. split; [| split].
  - intros Hterm. by rewrite (get_params_truthy _ Hterm), run_await.
  - by rewrite (get_params_falsy None), run_await by auto.
  - by rewrite (get_params_falsy (Some "")), run_await by auto.
Qed.

(** C4: show-filter makes exactly one call, the read (GET) request to
    [/v1/custom_fields_filter/] followed by [filter_id], with empty
    parameters (a read request has no body), and returns what that request
    returns; for [abc123] the path is [/v1/custom_fields_filter/abc123]. *)
Theorem show_reads_filter_path (filter_id : string) (w : World) :
  let request := MakeRequest ("/v1/custom_fields_filter/" +:+ filter_id) ∅ in
  calls facility (show_custom_fields_filter filter_id) w = [request]
  /\ json_bodies (calls facility (show_custom_fields_filter filter_id) w) = []
  /\ result facility (show_custom_fields_filter filter_id) w = (facility request w).1
  /\ world_after facility (show_custom_fields_filter filter_id) w = (facility request w).2
  /\ calls facility (show_custom_fields_filter "abc123") w
     = [MakeRequest "/v1/custom_fields_filter/abc123" ∅].
Proof.
  intros request. unfold calls, result, world_after.
  by rewrite !run_show.
Qed.

(** Every run of an operation is one call whose answer is the operation's,
    or a failure of [json.loads] in create-filter before any call. *)
Lemma run_invoke (i : invocation) (w : World) :
  (exists c,
     run facility (invoke json_loads i) w = ((facility c w).1, (facility c w).2, [c]))
  \/ (exists custom_fields e0,
        i = CreateFilter custom_fields
        /\ json_loads custom_fields = Exc e0
        /\ run facility (invoke json_loads i) w =
           (Exc match e0 with
                | JSONDecodeError diagnostic =>
                    ToolError ("Invalid JSON for custom_fields: " +:+ diagnostic)
                | _ => e0
                end, w, [])).
Proof.
  destruct i as [term | custom_fields | filter_id]; cbn [invoke].
  - left. destruct term as [t |].
    + destruct (decide (t = "")) as [-> | Ht].
      * exists (values_request ∅). rewrite get_params_falsy by auto. apply run_await.
      * exists (values_request {["term" := t]}).
        rewrite get_params_truthy by done. apply run_await.
    + exists (values_request ∅). rewrite get_params_falsy by auto. apply run_await.
  - destruct (json_loads custom_fields) as [fields_list | e0] eqn:Hloads.
    + left. exists (create_request fields_list). by apply run_create_loaded.
    + right. exists custom_fields, e0. split; [done |]. split; [done |].
      destruct e0 as [d | msg | cls msg].
      * by apply run_create_decode_error.
      * by apply run_create_other_error.
      * by apply run_create_other_error.
  - left. exists (show_request filter_id). apply run_show.
Qed.

(** C5: each element of a parsed array reaches the POST body as parsed, at
    its index: the element sent has the keys and values of the element
    parsed, so an element without [exclude] is sent without it and an element
    with [exclude] true is sent with [exclude] true. *)
Theorem create_forwards_each_field
  (custom_fields : string) (items : list pyobj) (i : nat) (field : pyobj) (w : World) :
  json_loads custom_fields = Ok (PyList items) ->
  items !! i = Some field ->
  exists forwarded,
    json_bodies (calls facility (create_custom_fields_filter json_loads custom_fields) w)
    = [PyDict [("custom_fields", PyList forwarded)]]
    /\ length forwarded = length items
    /\ forall sent, forwarded !! i = Some sent ->
         sent = field
         /\ (forall key, get_key key sent = get_key key field)
         /\ (has_key "exclude" field = false -> has_key "exclude" sent = false)
         /\ (get_key "exclude" field = Some (PyBool true) ->
             get_key "exclude" sent = Some (PyBool true)).
Proof.
  intros Hloads Hfield. exists items. unfold calls.
  rewrite (run_create_loaded _ _ _ Hloads). simpl.
  split; [done |]. split; [done |].
  intros sent Hsent. assert (sent = field) as -> by congruence. done.
Qed.

(** C6: every run of every operation is one of two things.  Either the
    operation makes exactly one call, the request of its input, and its
    outcome and the world after are that call's: what the call answers is
    returned and what it raises is raised, unchanged and with no second call.
    Or the operation is create-filter, [json.loads] raised on its argument,
    and no call is made: a [JSONDecodeError] becomes a [ToolError], the only
    failure classified here, and any other exception is passed on as it
    is. *)
Theorem transport_errors_pass_through (i : invocation) (w : World) :
  (exists c,
     match i with
     | GetValues term => exists params, c = values_request params
     | CreateFilter custom_fields =>
         exists fields_list,
           json_loads custom_fields = Ok fields_list /\ c = create_request fields_list
     | ShowFilter filter_id => c = show_request filter_id
     end
     /\ run facility (invoke json_loads i) w = ((facility c w).1, (facility c w).2, [c])
     /\ forall e,
          (facility c w).1 = Exc e ->
          result facility (invoke json_loads i) w = Exc e
          /\ calls facility (invoke json_loads i) w = [c])
  \/ (exists custom_fields e0,
        i = CreateFilter custom_fields
        /\ json_loads custom_fields = Exc e0
        /\ run facility (invoke json_loads i) w =
           (Exc match e0 with
                | JSONDecodeError diagnostic =>
                    ToolError ("Invalid JSON for custom_fields: " +:+ diagnostic)
                | _ => e0
                end, w, [])).
Proof.
  assert (forall c,
            run facility (invoke json_loads i) w = ((facility c w).1, (facility c w).2, [c]) ->
            forall e,
              (facility c w).1 = Exc e ->
              result facility (invoke json_loads i) w = Exc e
              /\ calls facility (invoke json_loads i) w = [c]) as Hfail.
  { intros c Hrun e He. unfold result, calls. by rewrite Hrun. }
  destruct i as [term | custom_fields | filter_id]; cbn [invoke] in *.
  - left. destruct term as [t |]; [destruct (decide (t = "")) as [-> | Ht] |].
    + exists (values_request ∅).
      assert (run facility (get_custom_fields_values (Some "")) w
              = ((facility (values_request ∅) w).1, (facility (values_request ∅) w).2,
                 [values_request ∅])) as Hrun
        by (rewrite get_params_falsy by auto; apply run_await).
      split; [by exists ∅ |]. split; [exact Hrun | by apply Hfail].
    + exists (values_request {["term" := t]}).
      assert (run facility (get_custom_fields_values (Some t)) w
              = ((facility (values_request {["term" := t]}) w).1,
                 (facility (values_request {["term" := t]}) w).2,
                 [values_request {["term" := t]}])) as Hrun
        by (rewrite get_params_truthy by done; apply run_await).
      split; [by eexists |]. split; [exact Hrun | by apply Hfail].
    + exists (values_request ∅).
      assert (run facility (get_custom_fields_values None) w
              = ((facility (values_request ∅) w).1, (facility (values_request ∅) w).2,
                 [values_request ∅])) as Hrun
        by (rewrite get_params_falsy by auto; apply run_await).
      split; [by exists ∅ |]. split; [exact Hrun | by apply Hfail].
  - destruct (json_loads custom_fields) as [fields_list | e0] eqn:Hloads.
    + left. exists (create_request fields_list).
      pose proof (run_create_loaded custom_fields fields_list w Hloads) as Hrun.
      split; [by exists fields_list |]. split; [exact Hrun | by apply Hfail].
    + right. exists custom_fields, e0. split; [done |]. split; [done |].
      destruct e0 as [d | msg | cls msg].
      * by apply run_create_decode_error.
      * by apply run_create_other_error.
      * by apply run_create_other_error.
  - left. exists (show_request filter_id).
    split; [done |]. split; [apply run_show | apply Hfail, run_show].
Qed.

(** C9: when [custom_fields] parses as JSON but not as an array, create-filter
    raises nothing of its own: it makes the one write (POST) request to
    [/v1/custom_fields_filter] with the parsed value under [custom_fields]
    and returns what that request returns. *)
Theorem create_forwards_non_array
  (custom_fields : string) (value : pyobj) (w : World) :
  json_loads custom_fields = Ok value ->
  is_array value = false ->
  let request :=
    MakePostRequest "/v1/custom_fields_filter" (PyDict [("custom_fields", value)]) in
  calls facility (create_custom_fields_filter json_loads custom_fields) w = [request]
  /\ result facility (create_custom_fields_filter json_loads custom_fields) w
     = (facility request w).1
  /\ world_after facility (create_custom_fields_filter json_loads custom_fields) w
     = (facility request w).2.
Proof.
  intros Hloads _ request. unfold calls, result, world_after.
  by rewrite (run_create_loaded _ _ _ Hloads).
Qed.

(** C10: the path show-filter requests is [/v1/custom_fields_filter/] with
    [filter_id] appended as it is, whatever its characters: the empty
    identifier gives the path that ends in the slash, and the segments of the
    path are those of the prefix followed by those of the identifier, so a
    slash in the identifier adds a segment. *)
Theorem show_path_is_concatenation (filter_id : string) (w : World) :
  request_path <$> calls facility (show_custom_fields_filter filter_id) w
  = ["/v1/custom_fields_filter/" +:+ filter_id]
  /\ request_path <$> calls facility (show_custom_fields_filter "") w
     = ["/v1/custom_fields_filter/"]
  /\ request_path <$> calls facility (show_custom_fields_filter "a/b?c=d") w
     = ["/v1/custom_fields_filter/a/b?c=d"]
  /\ segments ("/v1/custom_fields_filter/" +:+ filter_id)
     = ["" ; "v1"; "custom_fields_filter"] ++ segments filter_id
  /\ segments "/v1/custom_fields_filter/a/b?c=d"
     = [""; "v1"; "custom_fields_filter"; "a"; "b?c=d"].
Proof.
  unfold calls. rewrite !run_show. done.
Qed.

End OperationFacts.

(** ** Registration *)
Section RegistrationFacts.
Variable json_loads : string -> outcome pyobj.

Import CustomFieldsTools.

Lemma tool_appends_one (cat : string) (mcp : registry) (name title : string)
  (annotations : option (list (string * pyobj))) (fn : tool_fn) :
  length (tool cat mcp name title annotations fn) = S (length mcp).
Proof. unfold tool. rewrite length_app. simpl. lia. Qed.

Lemma register_tools_app (mcp : registry) :
  register_tools json_loads mcp = mcp ++ register_tools json_loads [].
Proof. unfold register_tools, tool. by rewrite <- !app_assoc. Qed.

(** C7: one call of [register_tools] adds three registrations to the host
    registry and leaves the earlier ones in place; all three are under the
    category [CustomFields], their names and titles are the three documented
    pairs, no name is registered twice, and each name is bound to its own
    coroutine. *)
Theorem register_tools_three_listed (mcp : registry) :
  exists new,
    register_tools json_loads mcp = mcp ++ new
    /\ length new = 3
    /\ listing <$> new =
       [("CustomFields", "get_custom_fields_values", "Get Custom Fields Values");
        ("CustomFields", "create_custom_fields_filter", "Create Custom Fields Filter");
        ("CustomFields", "show_custom_fields_filter", "Show Custom Fields Filter")]
    /\ NoDup (reg_name <$> new)
    /\ (fun r => fn_body (reg_fn r)) <$> new =
       [OptStrBody get_custom_fields_values;
        StrBody (create_custom_fields_filter json_loads);
        StrBody show_custom_fields_filter].
Proof.
  exists (register_tools json_loads []).
  split; [apply register_tools_app |].
  split; [done |]. split; [done |]. split; [| done].
  by apply (bool_decide_unpack _).
Qed.

(** C8: of the three registrations only that of create-filter carries
    annotations, and these mark it as not read-only ([readOnlyHint] false),
    not idempotent ([idempotentHint] false) and open-world ([openWorldHint]
    true); get-values and show-filter are registered with no annotations. *)
Theorem create_alone_annotated (mcp : registry) :
  exists get create show,
    register_tools json_loads mcp = mcp ++ [get; create; show]
    /\ reg_name get = "get_custom_fields_values"
    /\ reg_name create = "create_custom_fields_filter"
    /\ reg_name show = "show_custom_fields_filter"
    /\ reg_annotations get = None
    /\ reg_annotations show = None
    /\ exists hints,
         reg_annotations create = Some hints
         /\ dict_get "readOnlyHint" hints = Some (PyBool false)
         /\ dict_get "idempotentHint" hints = Some (PyBool false)
         /\ dict_get "openWorldHint" hints = Some (PyBool true).
Proof.
  rewrite register_tools_app. unfold register_tools, tool. simpl.
  do 3 eexists. split; [reflexivity |]. simpl.
  do 5 (split; [reflexivity |]).
  eexists. split; [reflexivity |]. done.
Qed.

End RegistrationFacts.

(** ** The operations against the remote service of the examples *)

Lemma create_posts_parsed_array_witness :
  Json.loads Mock.two_fields = Ok (PyList Mock.two_fields_parsed)
  /\ calls Mock.service
       (CustomFieldsTools.create_custom_fields_filter Json.loads Mock.two_fields) []
     = [MakePostRequest "/v1/custom_fields_filter"
          (PyDict [("custom_fields", PyList Mock.two_fields_parsed)])].
Proof.
  assert (Json.loads Mock.two_fields = Ok (PyList Mock.two_fields_parsed)) as Hloads
    by (vm_compute; reflexivity).
  split; [exact Hloads |].
  exact (proj1 (create_posts_parsed_array Mock.service Json.loads
                  Mock.two_fields Mock.two_fields_parsed [] Hloads)).
Defined.

Lemma create_rejects_malformed_json_witness :
  Json.loads "{not json"
  = Exc (JSONDecodeError
           "Expecting property name enclosed in double quotes: line 1 column 2 (char 1)")
  /\ result Mock.service
       (CustomFieldsTools.create_custom_fields_filter Json.loads "{not json") []
     = Exc (ToolError "Invalid JSON for custom_fields: Expecting property name enclosed in double quotes: line 1 column 2 (char 1)")
  /\ calls Mock.service
       (CustomFieldsTools.create_custom_fields_filter Json.loads "{not json") []
     = [].
Proof.
  assert (Json.loads "{not json"
          = Exc (JSONDecodeError
                   "Expecting property name enclosed in double quotes: line 1 column 2 (char 1)"))
    as Hloads by (vm_compute; reflexivity).
  split; [exact Hloads |].
  destruct (create_rejects_malformed_json Mock.service Json.loads _ _ [] Hloads)
    as (Hresult & Hcalls & _).
  split; [exact Hresult | exact Hcalls].
Defined.

Lemma get_values_params_witness :
  "Revenue" ≠ ""
  /\ calls Mock.service (CustomFieldsTools.get_custom_fields_values (Some "Revenue")) []
     = [MakeRequest "/v1/custom_fields_filter/fields_values" {["term" := "Revenue"]}].
Proof.
  assert ("Revenue" ≠ "") as Hterm by discriminate.
  split; [exact Hterm |].
  exact (proj1 (get_values_params Mock.service "Revenue" []) Hterm).
Defined.

Lemma create_forwards_each_field_witness :
  Json.loads Mock.two_fields = Ok (PyList Mock.two_fields_parsed)
  /\ Mock.two_fields_parsed !! 1
     = Some (PyDict [("name", PyStr "Last 30 Days Revenue (WW)"); ("global", PyBool true);
                     ("values", PyList [PyStr "5K - 50K"]); ("exclude", PyBool true)])
  /\ exists forwarded,
       json_bodies
         (calls Mock.service
            (CustomFieldsTools.create_custom_fields_filter Json.loads Mock.two_fields) [])
       = [PyDict [("custom_fields", PyList forwarded)]]
       /\ length forwarded = 2.
Proof.
  assert (Json.loads Mock.two_fields = Ok (PyList Mock.two_fields_parsed)) as Hloads
    by (vm_compute; reflexivity).
  split; [exact Hloads |]. split; [reflexivity |].
  destruct (create_forwards_each_field Mock.service Json.loads Mock.two_fields
              Mock.two_fields_parsed 1 _ [] Hloads eq_refl)
    as (forwarded & Hbody & Hlength & _).
  exists forwarded. split; [exact Hbody | exact Hlength].
Defined.

Lemma transport_errors_pass_through_witness :
  (Mock.offline (show_request "f0") []).1
  = Exc (OtherError "ConnectError" "All connection attempts failed")
  /\ result Mock.offline (invoke Json.loads (ShowFilter "f0")) []
     = Exc (OtherError "ConnectError" "All connection attempts failed")
  /\ calls Mock.offline (invoke Json.loads (ShowFilter "f0")) [] = [show_request "f0"].
Proof.
  split; [reflexivity |].
  destruct (transport_errors_pass_through Mock.offline Json.loads (ShowFilter "f0") [])
    as [(c & Hc & _ & Hfail) | (custom_fields & e0 & Hi & _)]; [| discriminate Hi].
  cbn in Hc. rewrite Hc in Hfail. exact (Hfail _ eq_refl).
Defined.

Lemma create_forwards_non_array_witness :
  Json.loads "42" = Ok (PyInt 42)
  /\ is_array (PyInt 42) = false
  /\ calls Mock.service (CustomFieldsTools.create_custom_fields_filter Json.loads "42") []
     = [MakePostRequest "/v1/custom_fields_filter" (PyDict [("custom_fields", PyInt 42)])].
Proof.
  assert (Json.loads "42" = Ok (PyInt 42)) as Hloads by (vm_compute; reflexivity).
  split; [exact Hloads |]. split; [reflexivity |].
  exact (proj1 (create_forwards_non_array Mock.service Json.loads "42" (PyInt 42) []
                  Hloads eq_refl)).
Defined.

(** With the decoder for [json.loads], create-filter rejects its argument
    before any call, passes on the [ValueError] of an [int] too long before
    any call, or makes the one write request with what it decoded. *)
Lemma create_rejects_or_posts {World : Type}
  (facility : call -> World -> outcome pyobj * World) (custom_fields : string) (w : World) :
  (exists errmsg,
     Json.loads custom_fields = Exc (JSONDecodeError errmsg)
     /\ run facility
          (CustomFieldsTools.create_custom_fields_filter Json.loads custom_fields) w
        = (Exc (ToolError ("Invalid JSON for custom_fields: " +:+ errmsg)), w, []))
  \/ (exists msg,
        Json.loads custom_fields = Exc (OtherError "ValueError" msg)
        /\ run facility
             (CustomFieldsTools.create_custom_fields_filter Json.loads custom_fields) w
           = (Exc (OtherError "ValueError" msg), w, []))
  \/ (exists fields_list,
        Json.loads custom_fields = Ok fields_list
        /\ calls facility
             (CustomFieldsTools.create_custom_fields_filter Json.loads custom_fields) w
           = [create_request fields_list]).
Proof.
  destruct (loads_total custom_fields)
    as [[fields_list Hloads] | [[errmsg Hloads] | [msg Hloads]]].
  - right. right. exists fields_list. split; [done |].
    unfold calls. by rewrite (run_create_loaded _ _ _ _ _ Hloads).
  - left. exists errmsg. split; [done |]. by apply run_create_decode_error.
  - right. left. exists msg. split; [done |]. by apply run_create_other_error.
Qed.

(** Creating a filter and showing the identifier returned gives back the
    specification submitted. *)
Example create_then_show :
  let text :=
    "[{" +:+ Json.q "name" +:+ ": " +:+ Json.q "Earliest Release Date" +:+ ", "
    +:+ Json.q "global" +:+ ": true, " +:+ Json.q "values" +:+ ": ["
    +:+ Json.q "2026/01" +:+ "]}]" in
  let create := CustomFieldsTools.create_custom_fields_filter Json.loads text in
  result Mock.service create []
  = Ok (PyDict [("custom_fields_filter_id", PyStr "f0")])
  /\ result Mock.service (CustomFieldsTools.show_custom_fields_filter "f0")
       (world_after Mock.service create [])
     = Ok (PyDict [("custom_fields",
                    PyList [PyDict [("name", PyStr "Earliest Release Date");
                                    ("global", PyBool true);
                                    ("values", PyList [PyStr "2026/01"])]])]).
Proof. vm_compute. split; reflexivity. Qed.

(** A filter that does not exist: the failure of the request is the
    operation's. *)
Example show_unknown_filter :
  result Mock.service (CustomFieldsTools.show_custom_fields_filter "f7") []
  = Exc (OtherError "HTTPStatusError" "404 Not Found").
Proof. vm_compute. reflexivity. Qed.

(** The example that ends the description of [custom_fields] (from its
    character 207 on) is a text the decoder accepts. *)
Example description_example_loads :
  Json.loads (Json.drop 207 CustomFieldsTools.custom_fields_description)
  = Ok (PyList [PyDict [("name", PyStr "Earliest Release Date"); ("global", PyBool true);
                        ("values", PyList [PyStr "2026/01"; PyStr "2026/02"])];
                PyDict [("name", PyStr "Last 30 Days Revenue (WW)"); ("global", PyBool true);
                        ("values", PyList [PyStr "5K - 50K"; PyStr "50K - 100K"])]]).
Proof. vm_compute. reflexivity. Qed.

(** Texts the decoder rejects, with the diagnostics of [json.loads]. *)
Example loads_trailing_comma :
  Json.loads "[1,]" = Exc (JSONDecodeError "Expecting value: line 1 column 4 (char 3)").
Proof. vm_compute. reflexivity. Qed.

Example loads_extra_data :
  Json.loads "1 2" = Exc (JSONDecodeError "Extra data: line 1 column 3 (char 2)").
Proof. vm_compute. reflexivity. Qed.

Example loads_missing_colon :
  Json.loads ("{" +:+ Json.q "a" +:+ " 1}")
  = Exc (JSONDecodeError "Expecting ':' delimiter: line 1 column 6 (char 5)").
Proof. vm_compute. reflexivity. Qed.

(** The names beyond RFC 8259 are accepted, as by [json.loads]. *)
Example loads_constants :
  Json.loads "[NaN, Infinity, -Infinity]"
  = Ok (PyList [PyFloat "NaN"; PyFloat "Infinity"; PyFloat "-Infinity"]).
Proof. vm_compute. reflexivity. Qed.

(** A repeated key keeps its first place and its last value. *)
Example loads_repeated_key :
  Json.loads ("{" +:+ Json.q "a" +:+ ":1," +:+ Json.q "b" +:+ ":2," +:+ Json.q "a" +:+ ":3}")
  = Ok (PyDict [("a", PyInt 3); ("b", PyInt 2)]).
Proof. vm_compute. reflexivity. Qed.

(** ** Further properties of the operations *)
Section MoreOperationFacts.
Context {World : Type}.
Variable facility : call -> World -> outcome pyobj * World.
Variable json_loads : string -> outcome pyobj.

Import CustomFieldsTools.

Lemma filter_path_inj (a b : string) :
  "/v1/custom_fields_filter/" +:+ a = "/v1/custom_fields_filter/" +:+ b -> a = b.
Proof. intros H. by simplify_eq/=. Qed.

Lemma make_request_inj (path1 path2 : string) (params1 params2 : gmap string string) :
  [MakeRequest path1 params1] = [MakeRequest path2 params2] ->
  path1 = path2 /\ params1 = params2.
Proof. intros [= -> ->]. done. Qed.

(** X1: get-values hands back whatever its one request gives, the response
    or the exception, and touches the world only through that request; the
    parameters are empty or the single entry for a non-empty [term]. *)
Theorem get_values_returns_response (term : option string) (w : World) :
  exists params,
    calls facility (get_custom_fields_values term) w = [values_request params]
    /\ result facility (get_custom_fields_values term) w
       = (facility (values_request params) w).1
    /\ world_after facility (get_custom_fields_values term) w
       = (facility (values_request params) w).2
    /\ (params = ∅ \/ exists t, term = Some t /\ t ≠ "" /\ params = {["term" := t]}).
Proof.
  unfold calls, result, world_after.
  destruct term as [t |]; [destruct (decide (t = "")) as [-> | Ht] |].
  - exists ∅. rewrite get_params_falsy, run_await by auto. auto.
  - exists {["term" := t]}. rewrite get_params_truthy, run_await by done.
    repeat split; try done. right. by exists t.
  - exists ∅. rewrite get_params_falsy, run_await by auto. auto.
Qed.

(** X3: an operation ends without having made a request exactly when it is
    create-filter and [json.loads] raised on its argument: get-values and
    show-filter reject no input of their own. *)
Theorem no_request_iff_loads_raises (i : invocation) (w : World) :
  calls facility (invoke json_loads i) w = []
  <-> exists custom_fields e0,
        i = CreateFilter custom_fields /\ json_loads custom_fields = Exc e0.
Proof.
  unfold calls.
  destruct (run_invoke facility json_loads i w)
    as [[c Hrun] | (custom_fields & e0 & Hi & Hloads & Hrun)]; rewrite Hrun; simpl.
  - split; [done |]. intros (custom_fields & e0 & -> & Hloads). exfalso.
    cbn [invoke] in Hrun.
    destruct e0 as [d | msg | cls msg].
    + by rewrite (run_create_decode_error _ _ _ _ _ Hloads) in Hrun.
    + by rewrite (run_create_other_error _ _ _ _ _ Hloads) in Hrun.
    + by rewrite (run_create_other_error _ _ _ _ _ Hloads) in Hrun.
  - split; [| done]. intros _. by exists custom_fields, e0.
Qed.

(** X4: show-filter makes the very request of get-values exactly when the
    identifier is [fields_values] and get-values has no term to send. *)
Theorem show_meets_values_route (filter_id : string) (term : option string) (w : World) :
  calls facility (show_custom_fields_filter filter_id) w
  = calls facility (get_custom_fields_values term) w
  <-> filter_id = "fields_values" /\ (term = None \/ term = Some "").
Proof.
  unfold calls. rewrite run_show. cbn [snd].
  split.
  - intros H.
    destruct term as [t |]; [destruct (decide (t = "")) as [-> | Ht] |].
    + rewrite get_params_falsy, run_await in H by auto.
      apply make_request_inj in H as [H _].
      apply (filter_path_inj _ "fields_values") in H. auto.
    + rewrite get_params_truthy, run_await in H by done.
      apply make_request_inj in H as [_ H].
      symmetry in H. by apply map_non_empty_singleton in H.
    + rewrite get_params_falsy, run_await in H by auto.
      apply make_request_inj in H as [H _].
      apply (filter_path_inj _ "fields_values") in H. auto.
  - intros [-> Hterm]. by rewrite get_params_falsy, run_await.
Qed.

(** X5: two identifiers get the same request from show-filter only when they
    are the same identifier. *)
Theorem show_requests_distinct (filter_id1 filter_id2 : string) (w : World) :
  calls facility (show_custom_fields_filter filter_id1) w
  = calls facility (show_custom_fields_filter filter_id2) w ->
  filter_id1 = filter_id2.
Proof.
  unfold calls. rewrite !run_show. cbn [snd].
  intros H. apply make_request_inj in H as [H _]. by apply filter_path_inj.
Qed.

(** X6: the [try] of create-filter covers the parse alone.  An exception of
    [json.loads] of another class than [JSONDecodeError] reaches the caller as
    it is, without a request; and a [JSONDecodeError] raised by the request
    reaches the caller as a [JSONDecodeError], not as a [ToolError]. *)
Theorem create_try_covers_parse_only (custom_fields : string) (w : World) :
  (forall e,
     json_loads custom_fields = Exc e ->
     (forall diagnostic, e ≠ JSONDecodeError diagnostic) ->
     result facility (create_custom_fields_filter json_loads custom_fields) w = Exc e
     /\ calls facility (create_custom_fields_filter json_loads custom_fields) w = [])
  /\ (forall fields_list diagnostic,
        json_loads custom_fields = Ok fields_list ->
        (facility (create_request fields_list) w).1 = Exc (JSONDecodeError diagnostic) ->
        result facility (create_custom_fields_filter json_loads custom_fields) w
        = Exc (JSONDecodeError diagnostic)).
Proof.
  unfold calls, result. split.
  - intros e Hloads Hclass. by rewrite (run_create_other_error _ _ _ _ _ Hloads Hclass).
  - intros fields_list diagnostic Hloads Hfail.
    by rewrite (run_create_loaded _ _ _ _ _ Hloads).
Qed.

End MoreOperationFacts.

(** The requests of an operation are fixed by its input. *)
Lemma calls_invoke_fixed (json_loads : string -> outcome pyobj) (i : invocation) :
  exists requests,
    forall (World : Type) (facility : call -> World -> outcome pyobj * World) (w : World),
      calls facility (invoke json_loads i) w = requests.
Proof.
  destruct i as [term | custom_fields | filter_id]; cbn [invoke].
  - destruct term as [t |]; [destruct (decide (t = "")) as [-> | Ht] |].
    + exists [values_request ∅]. intros. unfold calls.
      by rewrite get_params_falsy, run_await by auto.
    + exists [values_request {["term" := t]}]. intros. unfold calls.
      by rewrite get_params_truthy, run_await by done.
    + exists [values_request ∅]. intros. unfold calls.
      by rewrite get_params_falsy, run_await by auto.
  - destruct (json_loads custom_fields) as [fields_list | e0] eqn:Hloads.
    + exists [create_request fields_list]. intros. unfold calls.
      by rewrite (run_create_loaded _ _ _ _ _ Hloads).
    + exists []. intros. unfold calls. destruct e0 as [d | msg | cls msg].
      * by rewrite (run_create_decode_error _ _ _ _ _ Hloads).
      * by rewrite (run_create_other_error _ _ _ _ _ Hloads).
      * by rewrite (run_create_other_error _ _ _ _ _ Hloads).
  - exists [show_request filter_id]. intros. unfold calls. by rewrite run_show.
Qed.

(** X2: what an operation requests depends on its input alone: against two
    request facilities, in two states of the world, the same invocation makes
    the same calls; no answer and no earlier state finds its way into a
    request. *)
Theorem requests_depend_on_input_only
  {World1 World2 : Type}
  (facility1 : call -> World1 -> outcome pyobj * World1)
  (facility2 : call -> World2 -> outcome pyobj * World2)
  (json_loads : string -> outcome pyobj) (i : invocation) (w1 : World1) (w2 : World2) :
  calls facility1 (invoke json_loads i) w1 = calls facility2 (invoke json_loads i) w2.
Proof.
  destruct (calls_invoke_fixed json_loads i) as [requests Hfixed].
  by rewrite !Hfixed.
Qed.

(** X8: create-filter always wraps what it parsed: the body it sends is a
    dict whose only key is [custom_fields], bound to the parsed value, and is
    never the parsed value itself; a text that already is such an object is
    sent nested one level deeper. *)
Theorem create_always_wraps
  {World : Type} (facility : call -> World -> outcome pyobj * World)
  (json_loads : string -> outcome pyobj)
  (custom_fields : string) (fields_list : pyobj) (w : World) :
  json_loads custom_fields = Ok fields_list ->
  exists json_body,
    json_bodies
      (calls facility
         (CustomFieldsTools.create_custom_fields_filter json_loads custom_fields) w)
    = [json_body]
    /\ get_key "custom_fields" json_body = Some fields_list
    /\ (forall key, key ≠ "custom_fields" -> get_key key json_body = None)
    /\ json_body ≠ fields_list
    /\ (forall inner,
          get_key "custom_fields" fields_list = Some inner ->
          get_key "custom_fields" json_body ≫= get_key "custom_fields" = Some inner).
Proof.
  intros Hloads. exists (PyDict [("custom_fields", fields_list)]).
  unfold calls. rewrite (run_create_loaded _ _ _ _ _ Hloads).
  split; [reflexivity |]. split; [reflexivity |]. split; [| split].
  - intros key Hkey. unfold get_key. cbn [dict_get].
    rewrite (proj2 (String.eqb_neq "custom_fields" key)); [reflexivity |].
    intros Heq. apply Hkey. symmetry. exact Heq.
  - intros Hsame. apply (f_equal size) in Hsame. cbn [size] in Hsame. lia.
  - intros inner Hinner. exact Hinner.
Qed.

(** ** Further properties of the registration *)

(** X7: [register_tools] keeps a registry consistent: if every registration
    so far is named after its function, carries its own title in its
    annotations when it has any, and gives its parameter a default exactly
    when the parameter is [Optional], so is every registration afterwards. *)
Theorem register_tools_keeps_well_declared
  (json_loads : string -> outcome pyobj) (mcp : registry) :
  Forall well_declared mcp ->
  Forall well_declared (CustomFieldsTools.register_tools json_loads mcp).
Proof.
  intros Hmcp. rewrite register_tools_app. apply Forall_app. split; [exact Hmcp |].
  unfold CustomFieldsTools.register_tools, tool. cbn [app].
  repeat constructor; cbn.
  all: try (intros hints [=]).
  all: try (intros [? [=]]).
  all: try (intros [=]).
  all: try (by eexists).
  subst. reflexivity.
Qed.

(** ** The further properties against the remote service of the examples *)

Lemma no_request_iff_loads_raises_witness :
  calls Mock.service (invoke Json.loads (CreateFilter "{not json")) [] = [].
Proof.
  apply (no_request_iff_loads_raises Mock.service Json.loads (CreateFilter "{not json") []).
  eexists _, _. split; [reflexivity | vm_compute; reflexivity].
Defined.

Lemma show_meets_values_route_witness :
  calls Mock.service (CustomFieldsTools.show_custom_fields_filter "fields_values") []
  = calls Mock.service (CustomFieldsTools.get_custom_fields_values None) [].
Proof.
  apply (show_meets_values_route Mock.service "fields_values" None []).
  split; [reflexivity | left; reflexivity].
Defined.

Lemma show_requests_distinct_witness :
  calls Mock.service (CustomFieldsTools.show_custom_fields_filter "f0") []
  = calls Mock.service (CustomFieldsTools.show_custom_fields_filter "f0") []
  /\ "f0" = "f0".
Proof.
  split; [reflexivity |].
  exact (show_requests_distinct Mock.service "f0" "f0" [] eq_refl).
Defined.

Lemma create_try_covers_parse_only_witness :
  (loads_too_deep "[[1]]"
   = Exc (OtherError "RecursionError" "maximum recursion depth exceeded")
   /\ result Mock.service
        (CustomFieldsTools.create_custom_fields_filter loads_too_deep "[[1]]") []
      = Exc (OtherError "RecursionError" "maximum recursion depth exceeded"))
  /\ (Json.loads "[]" = Ok (PyList [])
      /\ (@garbled Mock.world (create_request (PyList [])) []).1
         = Exc (JSONDecodeError "Expecting value: line 1 column 1 (char 0)")
      /\ result (@garbled Mock.world)
           (CustomFieldsTools.create_custom_fields_filter Json.loads "[]") []
         = Exc (JSONDecodeError "Expecting value: line 1 column 1 (char 0)")).
Proof.
  split.
  - split; [reflexivity |].
    refine (proj1 (proj1 (create_try_covers_parse_only Mock.service loads_too_deep
                            "[[1]]" []) _ eq_refl _)).
    intros diagnostic. discriminate.
  - assert (Json.loads "[]" = Ok (PyList [])) as Hloads by (vm_compute; reflexivity).
    split; [exact Hloads |]. split; [reflexivity |].
    exact (proj2 (create_try_covers_parse_only (@garbled Mock.world) Json.loads "[]" [])
             _ _ Hloads eq_refl).
Defined.

Lemma create_always_wraps_witness :
  Json.loads ("{" +:+ Json.q "custom_fields" +:+ ": []}")
  = Ok (PyDict [("custom_fields", PyList [])])
  /\ exists json_body,
       json_bodies
         (calls Mock.service
            (CustomFieldsTools.create_custom_fields_filter Json.loads
               ("{" +:+ Json.q "custom_fields" +:+ ": []}")) [])
       = [json_body]
       /\ get_key "custom_fields" json_body = Some (PyDict [("custom_fields", PyList [])]).
Proof.
  assert (Json.loads ("{" +:+ Json.q "custom_fields" +:+ ": []}")
          = Ok (PyDict [("custom_fields", PyList [])])) as Hloads
    by (vm_compute; reflexivity).
  split; [exact Hloads |].
  destruct (create_always_wraps Mock.service Json.loads _ _ [] Hloads)
    as (json_body & Hbody & Hkey & _).
  exists json_body. split; [exact Hbody | exact Hkey].
Defined.

Lemma register_tools_keeps_well_declared_witness :
  Forall well_declared (@nil registered)
  /\ Forall well_declared (CustomFieldsTools.register_tools Json.loads []).
Proof.
  split; [apply Forall_nil_2 |].
  apply (register_tools_keeps_well_declared Json.loads []). apply Forall_nil_2.
Defined.

(** ** Where create-filter and the grammar of JSON part *)

(** C2, as first stated, fails: [NaN] is no JSON text, yet [json.loads]
    accepts it, and create-filter raises no [ToolError] but posts the value
    and returns the answer. *)
Lemma create_rejects_malformed_json_counterexample :
  Rfc8259.text "NaN" = false
  /\ Json.loads "NaN" = Ok (PyFloat "NaN")
  /\ calls Mock.service
       (CustomFieldsTools.create_custom_fields_filter Json.loads "NaN") []
     = [MakePostRequest "/v1/custom_fields_filter"
          (PyDict [("custom_fields", PyFloat "NaN")])]
  /\ result Mock.service
       (CustomFieldsTools.create_custom_fields_filter Json.loads "NaN") []
     = Ok (PyDict [("custom_fields_filter_id", PyStr "f0")]).
Proof. vm_compute. repeat split; reflexivity. Qed.

(** An array that opens with an [int] of 4301 digits is no JSON text; the
    conversion of the [int] raises [ValueError] before the text is found
    wanting, and create-filter passes it on: no [ToolError], no request. *)
Example create_passes_on_value_error :
  let custom_fields := "[" +:+ copies 4301 "1" +:+ " x" in
  Rfc8259.text custom_fields = false
  /\ result Mock.service
       (CustomFieldsTools.create_custom_fields_filter Json.loads custom_fields) []
     = Exc (OtherError "ValueError" "Exceeds the limit (4300 digits) for integer string conversion: value has 4301 digits; use sys.set_int_max_str_digits() to increase the limit")
  /\ calls Mock.service
       (CustomFieldsTools.create_custom_fields_filter Json.loads custom_fields) []
     = [].
Proof. vm_compute. repeat split; reflexivity. Qed.

(** Three thousand opening brackets are no JSON text; with room for a
    thousand nested containers the decoder raises [RecursionError], and
    create-filter passes it on: no [ToolError], no request. *)
Example create_passes_on_recursion_error :
  let custom_fields := copies 3000 "[" in
  Rfc8259.text custom_fields = false
  /\ result Mock.service
       (CustomFieldsTools.create_custom_fields_filter (Json.loads_within 1000)
          custom_fields) []
     = Exc (OtherError "RecursionError" "maximum recursion depth exceeded while decoding a JSON array from a unicode string")
  /\ calls Mock.service
       (CustomFieldsTools.create_custom_fields_filter (Json.loads_within 1000)
          custom_fields) []
     = [].
Proof. vm_compute. repeat split; reflexivity. Qed.

(** The grammar and the decoder agree on the texts of the examples. *)
Example rfc_texts :
  Rfc8259.text Mock.two_fields = true
  /\ Rfc8259.text "{not json" = false
  /\ Rfc8259.text "42" = true
  /\ Rfc8259.text "[NaN]" = false
  /\ Rfc8259.text " [1, 2.5e3, -0, null, false ]  " = true.
Proof. vm_compute. repeat split; reflexivity. Qed.
